(** * yggdrasil / cis_interface: typed message codec and RPC request driver

    A shallow embedding of

    - [cis_interface/datatypes/CisBaseType.py]  (the typed message codec:
      [check_encoded], [check_decoded], [encode], [decode], [serialize],
      [deserialize]), and
    - [yggdrasil/drivers/RPCRequestDriver.py]   (the client side of the RPC
      correlation protocol: [remove_model], [on_eof], [send_message],
      [run_loop], [prune_response_drivers]),

    followed by the properties of the design document that concern them. *)

From Stdlib Require Import ZArith Ascii String DecimalString.
From Stdlib.Strings Require Import Byte.
From stdpp Require Import base option list gmap strings sorting.

Local Open Scope string_scope.
Set Warnings "-register-all,-clear-no-such-hyp".

(** ** Python values the two modules exchange *)

Module Py.

(** Byte strings ([bytes]). *)
Definition bytes := list byte.

(** The exceptions that the modelled code raises or lets through. *)
Inductive exn : Type :=
| ValueError (msg : string)
| TypeError (msg : string)
| CisTypeError (msg : string)
| NotImplementedError (msg : string)
| KeyError (key : string)
| AttributeError (msg : string)
| JSONDecodeError
| OtherError (msg : string).

(** The outcome of a call: a value, or a raised exception. *)
Inductive res (A : Type) : Type :=
| Ok (a : A)
| Raise (e : exn).
Global Arguments Ok {A} a.
Global Arguments Raise {A} e.

Definition is_ok {A} (r : res A) : bool :=
  match r with Ok _ => true | Raise _ => false end.

(** [backwards.unicode2bytes] on text that is pure ASCII (which is all
    that [json.dumps] produces with its default [ensure_ascii=True], and
    what the separator literal is): one byte per character. *)
Definition unicode2bytes (s : string) : bytes := list_byte_of_string s.

(** What [deserialize] may be handed: the source tests
    [isinstance(msg, bytes_type)] first. *)
Inductive pyobj : Type :=
| PyBytes (b : bytes)
| PyStr (s : string)
| PyInt (z : Z)
| PyNone.

Definition isinstance_bytes (o : pyobj) : bool :=
  match o with PyBytes _ => true | _ => false end.

(** *** [bytes] searching and splitting *)

Fixpoint startswith (p s : bytes) : bool :=
  match p, s with
  | [], _ => true
  | _ :: _, [] => false
  | a :: p', b :: s' => Byte.eqb a b && startswith p' s'
  end.

(** [s.find(p)]: the index of the first occurrence of [p] in [s]. *)
Fixpoint find (p s : bytes) : option nat :=
  if startswith p s then Some 0
  else match s with
       | [] => None
       | _ :: s' => S <$> find p s'
       end.

(** [p in s] on byte strings. *)
Definition contains (p s : bytes) : bool :=
  match find p s with Some _ => true | None => false end.

(** [s.split(p, 1)] when [p] occurs in [s]: the text before the first
    occurrence and the text after it. *)
Definition split1 (p s : bytes) : option (bytes * bytes) :=
  i ← find p s; Some (take i s, drop (i + length p) s).

End Py.

(** ** JSON documents and [json.dumps(..., sort_keys=True)] *)

Module Json.
Import Py.

(** JSON-friendly Python values.  An object is a Python [dict] with string
    keys, kept in insertion order.  Floating point numbers are left out.
    A character of a [string] stands for the code point of the same
    number (0..255). *)
Inductive json : Type :=
| JNull
| JBool (b : bool)
| JInt (z : Z)
| JStr (s : string)
| JList (l : list json)
| JObject (d : list (string * json)).

(** A Python [dict] with string keys. *)
Definition pydict := list (string * json).

(** [d.get(k)] *)
Fixpoint dict_get (k : string) (d : pydict) : option json :=
  match d with
  | [] => None
  | (k', v) :: d' => if String.eqb k k' then Some v else dict_get k d'
  end.

(** [d[k] = v]: overwrite in place, or append a new entry. *)
Fixpoint dict_set (k : string) (v : json) (d : pydict) : pydict :=
  match d with
  | [] => [(k, v)]
  | (k', v') :: d' =>
      if String.eqb k k' then (k, v) :: d' else (k', v') :: dict_set k v d'
  end.

(** [d.update(kw)] *)
Definition dict_update (d kw : pydict) : pydict :=
  fold_left (fun acc kv => dict_set kv.1 kv.2 acc) kw d.

(** [d.setdefault(k, v)] (its effect on [d]). *)
Definition dict_setdefault (k : string) (v : json) (d : pydict) : pydict :=
  match dict_get k d with
  | Some _ => d
  | None => dict_set k v d
  end.

(** [k in d] *)
Definition dict_mem (k : string) (d : pydict) : bool :=
  match dict_get k d with Some _ => true | None => false end.

(** Structural equality, the model of [v1 == v2] on JSON values. *)
Fixpoint json_eqb (a b : json) : bool :=
  match a, b with
  | JNull, JNull => true
  | JBool x, JBool y => Bool.eqb x y
  | JInt x, JInt y => Z.eqb x y
  | JStr x, JStr y => String.eqb x y
  | JList l1, JList l2 =>
      (fix go (l1 l2 : list json) : bool :=
         match l1, l2 with
         | [], [] => true
         | x :: l1', y :: l2' => json_eqb x y && go l1' l2'
         | _, _ => false
         end) l1 l2
  | JObject d1, JObject d2 =>
      (fix go (d1 d2 : list (string * json)) : bool :=
         match d1, d2 with
         | [], [] => true
         | (k1, x) :: d1', (k2, y) :: d2' =>
             String.eqb k1 k2 && json_eqb x y && go d1' d2'
         | _, _ => false
         end) d1 d2
  | _, _ => false
  end.

(** *** String escaping, as [json.encoder.encode_basestring_ascii] *)

Definition hex_digit (n : N) : ascii :=
  match n with
  | 0 => "0" | 1 => "1" | 2 => "2" | 3 => "3" | 4 => "4" | 5 => "5"
  | 6 => "6" | 7 => "7" | 8 => "8" | 9 => "9" | 10 => "a" | 11 => "b"
  | 12 => "c" | 13 => "d" | 14 => "e" | _ => "f"
  end%N%char.

(** ["\\u{0:04x}".format(n)] for [n < 256]. *)
Definition u_escape (n : N) : string :=
  "\u00" ++ String (hex_digit (N.div n 16)) (String (hex_digit (N.modulo n 16)) "").

(** The double quote character. *)
Definition dquote : ascii := ascii_of_N 34.

Definition escape_char (c : ascii) : string :=
  let n := N_of_ascii c in
  if (n =? 34)%N then String "\" (String dquote "")
  else if (n =? 92)%N then "\\"
  else if (n =? 8)%N then "\b"
  else if (n =? 12)%N then "\f"
  else if (n =? 10)%N then "\n"
  else if (n =? 13)%N then "\r"
  else if (n =? 9)%N then "\t"
  else if ((n <? 32) || (126 <? n))%N then u_escape n
  else String c "".

Fixpoint escape_body (s : string) : string :=
  match s with
  | EmptyString => ""
  | String c s' => escape_char c ++ escape_body s'
  end.

Definition dumps_str (s : string) : string :=
  String dquote (escape_body s ++ String dquote "").

(** [str(z)] for an [int]. *)
Definition dumps_int (z : Z) : string := NilZero.string_of_int (Z.to_int z).

(** [", ".join(parts)] *)
Fixpoint join (sep : string) (parts : list string) : string :=
  match parts with
  | [] => ""
  | [p] => p
  | p :: ps => p ++ sep ++ join sep ps
  end.

(** Insertion of a rendered item into a list sorted by key
    ([sorted(dct.items())]; keys are distinct in a [dict]). *)
Fixpoint insert_item (kv : string * string) (l : list (string * string))
  : list (string * string) :=
  match l with
  | [] => [kv]
  | kv' :: l' =>
      if String.leb kv.1 kv'.1 then kv :: l else kv' :: insert_item kv l'
  end.

Definition sort_items (l : list (string * string)) : list (string * string) :=
  foldr insert_item [] l.

Definition render_item (kv : string * string) : string :=
  dumps_str kv.1 ++ ": " ++ kv.2.

(** [json.dumps(v, sort_keys=True)] with the default separators. *)
Fixpoint dumps (v : json) : string :=
  match v with
  | JNull => "null"
  | JBool true => "true"
  | JBool false => "false"
  | JInt z => dumps_int z
  | JStr s => dumps_str s
  | JList l => "[" ++ join ", " (map dumps l) ++ "]"
  | JObject d =>
      "{" ++ join ", "
               (map render_item
                  (sort_items (map (fun kv => (kv.1, dumps kv.2)) d)))
          ++ "}"
  end.

End Json.
(** ** [cis_interface/datatypes/CisBaseType.py] *)

Module CisBaseType.
Import Py Json.
Local Open Scope list_scope.

(** What [encode_data] hands back: [encode] tests that it is [bytes]. *)
Inductive encoded : Type :=
| Bytes (b : bytes)
| NotBytes.

(** The class attributes and the four methods that a user defined type
    overrides, together with the pluggable [check_meta_compat].  [Obj] is
    the type of the application objects the codec handles. *)
Class CisType (Obj : Type) : Type := {
  name : string;
  description : string;
  properties : pydict;
  definition_properties : list string;
  metadata_properties : list string;
  empty_msg : Obj;
  encode_type : Obj -> res pydict;
  encode_data : Obj -> pydict -> res encoded;
  decode_data : bytes -> json -> res Obj;
  transform_type : Obj -> option pydict -> res Obj;
  check_meta_compat : string -> json -> json -> bool;
}.

(** The two libraries the module calls: [jsonschema.validate obj schema]
    ([true] when it does not raise [ValidationError]) and [json.loads]
    after [backwards.bytes2unicode]. *)
Class Externals : Type := {
  jsonschema_valid : json -> json -> bool;
  json_loads : bytes -> res json;
}.

(** The header separator, [sep = backwards.unicode2bytes(':CIS_TAG:')]. *)
Definition sep : bytes := unicode2bytes ":CIS_TAG:".

(** [check_meta_compat] of the base class: [v1 == v2]. *)
Definition default_check_meta_compat (k : string) (v1 v2 : json) : bool :=
  json_eqb v1 v2.

Definition not_implemented {A} : res A :=
  Raise (NotImplementedError "Method must be overridden by the subclass.").

(** The base class itself: every method to be overridden raises. *)
Definition base : CisType json := {|
  name := "base";
  description := "A generic base type for users to build on.";
  properties := [];
  definition_properties := [];
  metadata_properties := [];
  empty_msg := JObject [];
  encode_type := fun _ => not_implemented;
  encode_data := fun _ _ => not_implemented;
  decode_data := fun _ _ => not_implemented;
  transform_type := fun _ _ => not_implemented;
  check_meta_compat := default_check_meta_compat;
|}.

(** A configured codec: [self._typedef]. *)
Record instance : Type := { self_typedef : pydict }.

Section Codec.
Context {Obj : Type} {T : CisType Obj} {E : Externals}.

(** The overridable methods a call went through, in order. *)
Inductive call : Type :=
| CallEncodeType (obj : Obj)
| CallTransformType (obj : Obj) (typedef : option pydict)
| CallEncodeData (obj : Obj) (typedef : pydict)
| CallDecodeData (data : bytes) (typedef : json).

(** Computations that log those calls and may raise. *)
Definition M (A : Type) : Type := list call * res A.

Definition ret {A} (a : A) : M A := ([], Ok a).
Definition raise {A} (e : exn) : M A := ([], Raise e).
Definition lift {A} (r : res A) : M A := ([], r).
Definition invoke {A} (c : call) (r : res A) : M A := ([c], r).
Definition bind {A B} (m : M A) (f : A -> M B) : M B :=
  match m with
  | (l, Ok a) => let '(l', r) := f a in (l ++ l', r)
  | (l, Raise e) => (l, Raise e)
  end.

Notation "x <- m ;; k" := (bind m (fun x => k))
  (at level 100, m at next level, right associativity).

Definition definition_schema : json :=
  JObject
    [("$schema", JStr "http://json-schema.org/draft-07/schema#");
     ("title", JStr name);
     ("description", JStr description);
     ("type", JStr "object");
     ("required", JList (map JStr (definition_properties ++ ["typename"])));
     ("properties",
       JObject
         (dict_set "typename"
            (JObject [("description", JStr "Name of the type encoded.");
                      ("type", JStr "string");
                      ("enum", JList [JStr name])])
            properties))].

Definition metadata_schema : json :=
  match definition_schema with
  | JObject out =>
      JObject
        (dict_set "required"
           (JList (map JStr (metadata_properties ++ ["typename"]))) out)
  | other => other
  end.

Definition validate_metadata (obj : json) : bool :=
  jsonschema_valid obj metadata_schema.

Definition validate_definition (obj : json) : bool :=
  jsonschema_valid obj definition_schema.

(** [metadata.get(k, None)]; only a [dict] has [get]. *)
Definition py_get (k : string) (metadata : json) : res json :=
  match metadata with
  | JObject d => Ok (default JNull (dict_get k d))
  | _ => Raise (AttributeError "get")
  end.

(** The loop [for k, v in typedef.items()] of [check_encoded]. *)
Fixpoint check_items (metadata : json) (items : pydict) : res bool :=
  match items with
  | [] => Ok true
  | (k, v) :: items' =>
      match py_get k metadata with
      | Raise e => Raise e
      | Ok x =>
          if negb (check_meta_compat k x v) then Ok false
          else check_items metadata items'
      end
  end.

Definition check_encoded (metadata : json) (typedef : option pydict)
  : res bool :=
  if negb (validate_metadata metadata) then Ok false
  else match typedef with
       | None => Ok true
       | Some td =>
           if negb (validate_definition (JObject td)) then Ok false
           else check_items metadata td
       end.

Definition check_decoded (obj : Obj) (typedef : option pydict) : M bool :=
  match encode_type obj with
  | Ok datadef =>
      ([CallEncodeType obj],
       check_encoded (JObject (dict_set "typename" (JStr name) datadef))
         typedef)
  | Raise (CisTypeError _) => ([CallEncodeType obj], Ok false)
  | Raise e => ([CallEncodeType obj], Raise e)
  end.

Definition encode (obj : Obj) (typedef : option pydict)
  : M (pydict * bytes) :=
  ok <- check_decoded obj typedef ;;
  if negb ok then
    raise (ValueError "Object is not correct type for encoding.")
  else
    obj_t <- invoke (CallTransformType obj typedef)
               (transform_type obj typedef) ;;
    md <- invoke (CallEncodeType obj_t) (encode_type obj_t) ;;
    let metadata := dict_set "typename" (JStr name) md in
    data <- invoke (CallEncodeData obj_t metadata)
              (encode_data obj_t metadata) ;;
    ok' <- lift (check_encoded (JObject metadata) typedef) ;;
    if negb ok' then raise (ValueError "Object was not encoded correctly.")
    else match data with
         | Bytes b => ret (metadata, b)
         | NotBytes =>
             raise (TypeError "Encoded data must be of type %s, not %s")
         end.

Definition decode (metadata : json) (data : bytes)
  (typedef : option pydict) : M Obj :=
  ok <- lift (check_encoded metadata typedef) ;;
  if negb ok then
    raise (ValueError "Metadata does not match type definition.")
  else
    out <- invoke (CallDecodeData data metadata)
             (decode_data data metadata) ;;
    ok' <- check_decoded out typedef ;;
    if negb ok' then raise (ValueError "Object was not decoded correctly.")
    else invoke (CallTransformType out typedef)
           (transform_type out typedef).

Definition serialize (self : instance) (obj : Obj) (kwargs : pydict)
  : M bytes :=
  out <- encode obj (Some (self_typedef self)) ;;
  let '(metadata, data) := out in
  let metadata := dict_update metadata kwargs in
  let msg := unicode2bytes (dumps (JObject metadata)) in
  ret (msg ++ sep ++ data).

Definition deserialize (self : instance) (msg : pyobj) : M (Obj * json) :=
  match msg with
  | PyBytes b =>
      if (length b =? 0)%nat then ret (empty_msg, JObject [])
      else if negb (contains sep b) then
        raise (ValueError "Separator '%s' not in message.")
      else
        match split1 sep b with
        | Some (header, data) =>
            metadata <- lift (json_loads header) ;;
            obj <- decode metadata data (Some (self_typedef self)) ;;
            ret (obj, metadata)
        | None => raise (ValueError "Separator '%s' not in message.")
        end
  | _ => raise (TypeError "Message to be deserialized is not bytes type.")
  end.

End Codec.

Global Arguments call : clear implicits.
Global Arguments M : clear implicits.

End CisBaseType.

(** ** [yggdrasil/communication/CommBase]: messages *)

Module CommBase.
Import Py Json.

Inductive flag_t : Type := FLAG_SUCCESS | FLAG_EOF | FLAG_EMPTY | FLAG_FAILURE.

Definition flag_eqb (a b : flag_t) : bool :=
  match a, b with
  | FLAG_SUCCESS, FLAG_SUCCESS | FLAG_EOF, FLAG_EOF
  | FLAG_EMPTY, FLAG_EMPTY | FLAG_FAILURE, FLAG_FAILURE => true
  | _, _ => false
  end.

Record CommMessage : Type := {
  args : pyobj;
  flag : flag_t;
  header : pydict;
}.

End CommBase.

(** ** [yggdrasil/drivers/RPCRequestDriver.py] *)

Module RPCRequestDriver.
Import Py Json CommBase.
Local Open Scope list_scope.

Definition YGG_CLIENT_INI : bytes := unicode2bytes "YGG_BEGIN_CLIENT".
Definition YGG_CLIENT_EOF : bytes := unicode2bytes "YGG_END_CLIENT".

(** The two registries of a connection driver. *)
Inductive direction : Type := Input | Output.

(** A response driver as the request driver sees it: the address it
    listens on, whether its thread is running, and what its two comms
    report.  The list [response_drivers] holds the objects themselves, so
    an entry carries the state the object is in. *)
Record RPCResponseDriver : Type := {
  response_address : json;
  is_alive : bool;
  icomm_is_confirmed_recv : bool;
  ocomm_is_confirmed_send : bool;
}.

(** The keyword arguments [send_message] builds for the constructor. *)
Record drv_kwargs : Type := {
  request_name : string;
  inputs : list pydict;
  outputs : list pydict;
}.

(** The keyword arguments of [send_message]. *)
Record send_kwargs : Type := {
  header_kwargs : option pydict;
  skip_processing : bool;
}.

Definition no_kwargs : send_kwargs :=
  {| header_kwargs := None; skip_processing := false |}.

(** What the driver does to the outside, in order. *)
Inductive event : Type :=
| EvConstructed (address request_id : json) (kw : drv_kwargs)
    (drv : RPCResponseDriver)
| EvStarted (drv : RPCResponseDriver)
| EvException (msg : string)
| EvBaseSend (msg : CommMessage) (kw : send_kwargs)
| EvSendEof
| EvBaseOnEof (msg : CommMessage)
| EvCleanup (drv : RPCResponseDriver)
| EvTerminate (drv : RPCResponseDriver).

Record state : Type := {
  name : string;
  models_input : gset string;
  models_output : gset string;
  response_kwargs : pydict;
  response_drivers : list RPCResponseDriver;
  block_response : bool;
  ocomm_is_closed : bool;
  is_comm_open : bool;
  was_break : bool;
  icomm_empty_obj_recv : pyobj;
  trace : list event;
}.

Definition models (d : direction) (st : state) : gset string :=
  match d with Input => models_input st | Output => models_output st end.

Definition set_models (d : direction) (m : gset string) (st : state) : state :=
  match d with
  | Input =>
      {| name := name st; models_input := m;
         models_output := models_output st;
         response_kwargs := response_kwargs st;
         response_drivers := response_drivers st;
         block_response := block_response st;
         ocomm_is_closed := ocomm_is_closed st;
         is_comm_open := is_comm_open st; was_break := was_break st;
         icomm_empty_obj_recv := icomm_empty_obj_recv st;
         trace := trace st |}
  | Output =>
      {| name := name st; models_input := models_input st;
         models_output := m;
         response_kwargs := response_kwargs st;
         response_drivers := response_drivers st;
         block_response := block_response st;
         ocomm_is_closed := ocomm_is_closed st;
         is_comm_open := is_comm_open st; was_break := was_break st;
         icomm_empty_obj_recv := icomm_empty_obj_recv st;
         trace := trace st |}
  end.

Definition set_response_drivers (l : list RPCResponseDriver) (st : state)
  : state :=
  {| name := name st; models_input := models_input st;
     models_output := models_output st;
     response_kwargs := response_kwargs st;
     response_drivers := l;
     block_response := block_response st;
     ocomm_is_closed := ocomm_is_closed st;
     is_comm_open := is_comm_open st; was_break := was_break st;
     icomm_empty_obj_recv := icomm_empty_obj_recv st;
     trace := trace st |}.

Definition set_block_response (b : bool) (st : state) : state :=
  {| name := name st; models_input := models_input st;
     models_output := models_output st;
     response_kwargs := response_kwargs st;
     response_drivers := response_drivers st;
     block_response := b;
     ocomm_is_closed := ocomm_is_closed st;
     is_comm_open := is_comm_open st; was_break := was_break st;
     icomm_empty_obj_recv := icomm_empty_obj_recv st;
     trace := trace st |}.

Definition emit (e : event) (st : state) : state :=
  {| name := name st; models_input := models_input st;
     models_output := models_output st;
     response_kwargs := response_kwargs st;
     response_drivers := response_drivers st;
     block_response := block_response st;
     ocomm_is_closed := ocomm_is_closed st;
     is_comm_open := is_comm_open st; was_break := was_break st;
     icomm_empty_obj_recv := icomm_empty_obj_recv st;
     trace := trace st ++ [e] |}.

(** The collaborators whose code is outside this module: the response
    driver class and the parts of the parent class that the request driver
    calls through [super]. *)
Class Collaborators : Type := {
  (** [RPCResponseDriver(address, request_id, **kw)]: the new driver, or
      the exception its constructor raises. *)
  new_response_driver : json -> json -> drv_kwargs -> res RPCResponseDriver;
  (** [drv.start()]: the driver once started, or the exception. *)
  start : RPCResponseDriver -> res RPCResponseDriver;
  (** what the parent's [send_message] returns *)
  base_send_result : CommMessage -> send_kwargs -> bool;
  (** what the parent's [on_eof] returns *)
  base_on_eof_result : CommMessage -> CommMessage;
  (** the parent's [run_loop] *)
  base_run_loop : state -> state;
}.

(** [self.clients]: a copy of the input registry. *)
Definition clients (st : state) : gset string := models Input st.

(** [self.nclients] *)
Definition nclients (st : state) : nat := size (clients st).

(** [name in registry], for a name read from a header. *)
Definition name_in (nm : json) (reg : gset string) : bool :=
  match nm with
  | JStr s => bool_decide (s ∈ reg)
  | _ => false
  end.

(** Modelled from the spec: [ConnectionDriver.remove_model], which is not
    in the sources at hand.  The pump owns one registry (a set of names)
    per direction; removing a model takes its name out of that direction's
    registry, an unknown name is left alone, and the call returns whether
    that direction's registry is now empty. *)
Definition base_remove_model (d : direction) (nm : json) (st : state)
  : bool * state :=
  let reg :=
    match nm with
    | JStr s => models d st ∖ {[ s ]}
    | _ => models d st
    end in
  (bool_decide (reg = ∅), set_models d reg st).

(** Modelled from the spec: [ConnectionDriver.send_eof], which is not in
    the sources at hand: the pump translates total sign-off to one outgoing
    EOF on its output side. *)
Definition send_eof (st : state) : state := emit EvSendEof st.

Section Driver.
Context {C : Collaborators}.

(** [super().send_message(msg, **kw)] *)
Definition base_send_message (msg : CommMessage) (kw : send_kwargs)
  (st : state) : bool * state :=
  (base_send_result msg kw, emit (EvBaseSend msg kw) st).

(** [super().on_eof(msg)] *)
Definition base_on_eof (msg : CommMessage) (st : state)
  : CommMessage * state :=
  (base_on_eof_result msg, emit (EvBaseOnEof msg) st).

Definition client_eof_message : CommMessage :=
  {| args := PyBytes YGG_CLIENT_EOF; flag := FLAG_SUCCESS; header := [] |}.

Definition remove_model (d : direction) (nm : json) (st : state)
  : bool * state :=
  let st1 :=
    match d with
    | Input =>
        if name_in nm (clients st) then
          (base_send_message client_eof_message
             {| header_kwargs := Some [("raw", JBool true); ("model", nm)];
                skip_processing := true |} st).2
        else st
    | Output => st
    end in
  let '(out, st2) := base_remove_model d nm st1 in
  if out then (out, send_eof st2) else (out, st2).

Definition on_eof (msg : CommMessage) (st : state) : CommMessage * state :=
  let st1 :=
    (remove_model Input (default (JStr "") (dict_get "model" (header msg)))
       st).2 in
  if (nclients st1 =? 0)%nat then base_on_eof msg st1
  else ({| args := icomm_empty_obj_recv st1; flag := FLAG_EMPTY;
           header := [] |}, st1).

(** [l[-1] = x]: the object appended last is the one being started. *)
Definition set_last (x : RPCResponseDriver) (l : list RPCResponseDriver)
  : list RPCResponseDriver :=
  <[ pred (length l) := x ]> l.

Definition send_message (msg : CommMessage) (kw : send_kwargs)
  (st : state) : res bool * state :=
  if ocomm_is_closed st then (Ok false, st)
  else if negb (flag_eqb (flag msg) FLAG_EOF) then
    if negb (is_comm_open st) || block_response st then (Ok false, st)
    else
      match dict_get "response_address" (header msg) with
      | None => (Raise (KeyError "response_address"), st)
      | Some address =>
      match dict_get "request_id" (header msg) with
      | None => (Raise (KeyError "request_id"), st)
      | Some request_id =>
      match dict_get "commtype" (header msg) with
      | None => (Raise (KeyError "commtype"), st)
      | Some commtype =>
          let drv_kw :=
            {| request_name := name st;
               inputs := [response_kwargs st];
               outputs := [[("commtype", commtype)]] |} in
          match new_response_driver address request_id drv_kw with
          | Raise _ =>
              (Ok false,
               emit (EvException "Could not create/start response driver.")
                 st)
          | Ok drv =>
              let st1 :=
                set_response_drivers (response_drivers st ++ [drv])
                  (emit (EvConstructed address request_id drv_kw drv) st) in
              match start drv with
              | Raise _ =>
                  (Ok false,
                   emit
                     (EvException "Could not create/start response driver.")
                     st1)
              | Ok drv' =>
                  let st2 :=
                    set_response_drivers
                      (set_last drv' (response_drivers st1))
                      (emit (EvStarted drv') st1) in
                  let hk := default [] (header_kwargs kw) in
                  let hk :=
                    dict_setdefault "response_address"
                      (response_address drv') hk in
                  let hk := dict_setdefault "request_id" request_id hk in
                  let hk :=
                    dict_setdefault "model"
                      (default (JStr "") (dict_get "model" (header msg)))
                      hk in
                  let '(sent, st3) :=
                    base_send_message msg
                      {| header_kwargs := Some hk;
                         skip_processing := skip_processing kw |} st2 in
                  (Ok sent, st3)
              end
          end
      end end end
  else
    let '(sent, st') := base_send_message msg kw st in (Ok sent, st').

(** [x] may be dropped: its thread is done and both comms confirm. *)
Definition prunable (x : RPCResponseDriver) : bool :=
  negb (is_alive x) && icomm_is_confirmed_recv x
  && ocomm_is_confirmed_send x.

(** The first loop of [prune_response_drivers]: the indices to remove,
    calling [cleanup] on each driver found. *)
Fixpoint scan (i : nat) (l : list RPCResponseDriver) (st : state)
  : list nat * state :=
  match l with
  | [] => ([], st)
  | x :: l' =>
      if prunable x then
        let '(idx, st') := scan (S i) l' (emit (EvCleanup x) st) in
        (i :: idx, st')
      else scan (S i) l' st
  end.

(** The second loop: [for i in remove_idx[::-1]: response_drivers.pop(i)].
    The indices come from [enumerate], so each is in range. *)
Definition pop_all (idx : list nat) (l : list RPCResponseDriver)
  : list RPCResponseDriver :=
  foldl (fun acc i => delete i acc) l (rev idx).

Definition prune_response_drivers (st : state) : state :=
  let '(remove_idx, st') := scan 0 (response_drivers st) st in
  set_response_drivers (pop_all remove_idx (response_drivers st')) st'.

Definition run_loop (st : state) : state :=
  let st' := base_run_loop st in
  if negb (was_break st') then prune_response_drivers st' else st'.

Definition close_response_drivers (st : state) : state :=
  let st1 := set_block_response true st in
  let st2 :=
    foldl (fun acc x => emit (EvTerminate x) acc) st1 (response_drivers st1) in
  set_response_drivers [] st2.

End Driver.

End RPCRequestDriver.

(** ** Concrete types and collaborators, used to exercise the model *)

Module Examples.
Import Py Json CisBaseType.
Local Open Scope list_scope.

(** The keys a schema requires. *)
Definition required_keys (schema : json) : list json :=
  match schema with
  | JObject d =>
      match dict_get "required" d with
      | Some (JList l) => l
      | _ => []
      end
  | _ => []
  end.

(** A validator that checks the [required] part of a schema only: the
    instance is an object that has every required key. *)
Definition required_valid (obj schema : json) : bool :=
  match obj with
  | JObject d =>
      forallb (fun k => match k with JStr s => dict_mem s d | _ => false end)
        (required_keys schema)
  | _ => false
  end.

Definition externals : Externals := {|
  jsonschema_valid := required_valid;
  json_loads := fun _ => Raise JSONDecodeError;
|}.

(** A type whose objects are byte strings sent as they are. *)
Definition raw_type : CisType bytes := {|
  name := "raw";
  description := "Raw bytes.";
  properties := [];
  definition_properties := [];
  metadata_properties := [];
  empty_msg := [];
  encode_type := fun _ => Ok [];
  encode_data := fun obj _ => Ok (Bytes obj);
  decode_data := fun data _ => Ok data;
  transform_type := fun obj _ => Ok obj;
  check_meta_compat := default_check_meta_compat;
|}.

(** A type of byte strings of width four: [transform_type] cuts an object
    down to the width of the type. *)
Definition fixed4_type : CisType bytes := {|
  name := "fixed4";
  description := "Bytes, four wide.";
  properties := [];
  definition_properties := [];
  metadata_properties := [];
  empty_msg := [];
  encode_type := fun _ => Ok [];
  encode_data := fun obj _ => Ok (Bytes obj);
  decode_data := fun data _ => Ok data;
  transform_type := fun obj _ => Ok (take 4 obj);
  check_meta_compat := default_check_meta_compat;
|}.

Definition raw_codec : instance := {| self_typedef := [("typename", JStr "raw")] |}.
Definition fixed4_codec : instance :=
  {| self_typedef := [("typename", JStr "fixed4")] |}.

End Examples.

(** ** Runs of the request driver, and what they show to the outside *)

Module Runs.
Import Py Json CommBase RPCRequestDriver.
Local Open Scope list_scope.

(** The events a call added to the trace, from the state before it and the
    state after it. *)
Definition emitted (st st' : state) : list event :=
  drop (length (trace st)) (trace st').

Definition is_send_eof (e : event) : bool :=
  match e with EvSendEof => true | _ => false end.

Definition is_base_send (e : event) : bool :=
  match e with EvBaseSend _ _ => true | _ => false end.

(** How many downstream EOFs a trace holds. *)
Definition eof_count (st : state) : nat :=
  length (List.filter is_send_eof (trace st)).

(** The EOF message of client [n]. *)
Definition eof_from (n : string) : CommMessage :=
  {| args := PyBytes (unicode2bytes "EOF!!!"); flag := FLAG_EOF;
     header := [("model", JStr n)] |}.

(** The clients of [order] sign off one after the other. *)
Definition sign_off {C : Collaborators} (order : list string) (st : state)
  : state :=
  foldl (fun s n => (on_eof (eof_from n) s).2) st order.

(** A driver that has just been wired, with the given clients. *)
Definition wired (cl : gset string) : state := {|
  name := "rpc";
  models_input := cl;
  models_output := {[ "server" ]};
  response_kwargs := [("commtype", JStr "buffer")];
  response_drivers := [];
  block_response := false;
  ocomm_is_closed := false;
  is_comm_open := true;
  was_break := false;
  icomm_empty_obj_recv := PyNone;
  trace := [];
|}.

Definition fresh_driver (address : json) : RPCResponseDriver := {|
  response_address := address;
  is_alive := false;
  icomm_is_confirmed_recv := false;
  ocomm_is_confirmed_send := false;
|}.

Definition started (d : RPCResponseDriver) : RPCResponseDriver := {|
  response_address := response_address d;
  is_alive := true;
  icomm_is_confirmed_recv := icomm_is_confirmed_recv d;
  ocomm_is_confirmed_send := ocomm_is_confirmed_send d;
|}.

(** Collaborators that never fail. *)
Definition sound : Collaborators := {|
  new_response_driver := fun address _ _ => Ok (fresh_driver address);
  start := fun d => Ok (started d);
  base_send_result := fun _ _ => true;
  base_on_eof_result := fun msg => msg;
  base_run_loop := fun st => st;
|}.

(** A response driver class whose constructor raises. *)
Definition no_constructor : Collaborators := {|
  new_response_driver := fun _ _ _ => Raise (OtherError "no address");
  start := fun d => Ok (started d);
  base_send_result := fun _ _ => true;
  base_on_eof_result := fun msg => msg;
  base_run_loop := fun st => st;
|}.

(** A response driver class whose [start] raises. *)
Definition no_start : Collaborators := {|
  new_response_driver := fun address _ _ => Ok (fresh_driver address);
  start := fun _ => Raise (OtherError "cannot start thread");
  base_send_result := fun _ _ => true;
  base_on_eof_result := fun msg => msg;
  base_run_loop := fun st => st;
|}.

(** A request from client [A]. *)
Definition ping : CommMessage := {|
  args := PyBytes (unicode2bytes "ping");
  flag := FLAG_SUCCESS;
  header := [("response_address", JStr "addr1"); ("request_id", JStr "r1");
             ("commtype", JStr "buffer"); ("model", JStr "A")];
|}.

(** The "client end" sentinel for model [nm], as handed to the parent's
    [send_message]. *)
Definition client_end (nm : json) : event :=
  EvBaseSend client_eof_message
    {| header_kwargs := Some [("raw", JBool true); ("model", nm)];
       skip_processing := true |}.

(** The registry of direction [d] once the name [nm] is out of it. *)
Definition without (nm : json) (reg : gset string) : gset string :=
  match nm with
  | JStr s => reg ∖ {[ s ]}
  | _ => reg
  end.

Section Outcomes.
Context {C : Collaborators}.

(** The keyword arguments with which the tagged request goes to the
    parent's [send_message]. *)
Definition tagged (msg : CommMessage) (kw : send_kwargs)
  (drv : RPCResponseDriver) (request_id : json) : send_kwargs :=
  {| header_kwargs :=
       Some
         (dict_setdefault "model"
            (default (JStr "") (dict_get "model" (header msg)))
            (dict_setdefault "request_id" request_id
               (dict_setdefault "response_address" (response_address drv)
                  (default [] (header_kwargs kw)))));
     skip_processing := skip_processing kw |}.

(** The constructor arguments [send_message] derives from a request. *)
Definition route_kwargs (st : state) (commtype : json) : drv_kwargs :=
  {| request_name := name st;
     inputs := [response_kwargs st];
     outputs := [[("commtype", commtype)]] |}.

(** What [send_message] can do with a message that is not an EOF. *)
Inductive dispatch (msg : CommMessage) (kw : send_kwargs) (st : state)
  : res bool * state -> Prop :=
| dispatch_refused :
    ocomm_is_closed st = true
    \/ is_comm_open st = false \/ block_response st = true ->
    dispatch msg kw st (Ok false, st)
| dispatch_key_error (k : string) :
    k ∈ ["response_address"; "request_id"; "commtype"] ->
    dict_get k (header msg) = None ->
    dispatch msg kw st (Raise (KeyError k), st)
| dispatch_no_constructor (address request_id commtype : json) (e : exn)
    (st' : state) :
    dict_get "response_address" (header msg) = Some address ->
    dict_get "request_id" (header msg) = Some request_id ->
    dict_get "commtype" (header msg) = Some commtype ->
    new_response_driver address request_id (route_kwargs st commtype)
    = Raise e ->
    emitted st st'
    = [EvException "Could not create/start response driver."] ->
    response_drivers st' = response_drivers st ->
    dispatch msg kw st (Ok false, st')
| dispatch_no_start (address request_id commtype : json)
    (drv : RPCResponseDriver) (e : exn) (st' : state) :
    dict_get "response_address" (header msg) = Some address ->
    dict_get "request_id" (header msg) = Some request_id ->
    dict_get "commtype" (header msg) = Some commtype ->
    new_response_driver address request_id (route_kwargs st commtype)
    = Ok drv ->
    start drv = Raise e ->
    emitted st st'
    = [EvConstructed address request_id (route_kwargs st commtype) drv;
       EvException "Could not create/start response driver."] ->
    response_drivers st' = response_drivers st ++ [drv] ->
    dispatch msg kw st (Ok false, st')
| dispatch_sent (address request_id commtype : json)
    (drv drv' : RPCResponseDriver) (st' : state) :
    ocomm_is_closed st = false ->
    is_comm_open st = true ->
    block_response st = false ->
    dict_get "response_address" (header msg) = Some address ->
    dict_get "request_id" (header msg) = Some request_id ->
    dict_get "commtype" (header msg) = Some commtype ->
    new_response_driver address request_id (route_kwargs st commtype)
    = Ok drv ->
    start drv = Ok drv' ->
    emitted st st'
    = [EvConstructed address request_id (route_kwargs st commtype) drv;
       EvStarted drv';
       EvBaseSend msg (tagged msg kw drv' request_id)] ->
    response_drivers st' = response_drivers st ++ [drv'] ->
    dispatch msg kw st
      (Ok (base_send_result msg (tagged msg kw drv' request_id)), st').

End Outcomes.

End Runs.

(** ** [CisBaseType.py]: type definitions of an instance *)

Module Typedef.
Import Py Json CisBaseType.
Local Open Scope list_scope.

(** Truth value of a Python object in a condition. *)
Definition py_truthy (v : json) : bool :=
  match v with
  | JNull => false
  | JBool b => b
  | JInt z => negb (Z.eqb z 0)
  | JStr s => negb (String.eqb s EmptyString)
  | JList l => match l with [] => false | _ => true end
  | JObject d => match d with [] => false | _ => true end
  end.

(** [j[k]] for a string key. *)
Definition json_item (k : string) (j : json) : res json :=
  match j with
  | JObject d =>
      match dict_get k d with
      | Some v => Ok v
      | None => Raise (KeyError k)
      end
  | _ => Raise (TypeError "indices must be integers")
  end.

(** [x in j] where [j] is a list (by [==]) or a dict (by key). *)
Definition py_in (x : json) (j : json) : res bool :=
  match j with
  | JList l => Ok (existsb (json_eqb x) l)
  | JObject d =>
      match x with
      | JStr k => Ok (dict_mem k d)
      | _ => Ok false
      end
  | _ => Raise (TypeError "argument is not iterable")
  end.

(** [del d[k]] *)
Fixpoint dict_del (k : string) (d : pydict) : pydict :=
  match d with
  | [] => []
  | (k', v) :: d' =>
      if String.eqb k k' then d' else (k', v) :: dict_del k d'
  end.

(** [list(d.keys())] *)
Definition dict_keys (d : pydict) : list string := map fst d.

(** What [jsonschema.validate] raises on an instance the schema
    rejects. *)
Definition ValidationError : exn :=
  OtherError "jsonschema.exceptions.ValidationError".

Section Instance.
Context {Obj : Type} {T : CisType Obj} {E : Externals}.

(** [k] is one of the keys a type definition must have. *)
Definition required (k : string) : bool :=
  existsb (String.eqb k) (definition_properties ++ ["typename"]).

(** [k] is one of the keys a type definition may have. *)
Definition is_property (k : string) : bool :=
  String.eqb k "typename" || dict_mem k properties.


(** The loop of [extract_typedef]: every key outside [reqkeys] is
    deleted. *)
Fixpoint drop_unrequired (reqkeys : json) (keylist : list string)
  (out : pydict) : res pydict :=
  match keylist with
  | [] => Ok out
  | k :: keylist' =>
      match py_in (JStr k) reqkeys with
      | Raise e => Raise e
      | Ok true => drop_unrequired reqkeys keylist' out
      | Ok false => drop_unrequired reqkeys keylist' (dict_del k out)
      end
  end.

Definition extract_typedef (metadata : pydict) : res pydict :=
  let out := metadata in
  match json_item "required" definition_schema with
  | Raise e => Raise e
  | Ok reqkeys =>
      match drop_unrequired reqkeys (dict_keys out) out with
      | Raise e => Raise e
      | Ok out =>
          if validate_definition (JObject out) then Ok out
          else Raise ValidationError
      end
  end.

(** The loop of [update_typedef]: a keyword that is a property of the
    definition schema is popped from [kwargs] into the typedef. *)
Fixpoint absorb (props : json) (all_keys : list string)
  (typedef kwargs : pydict) : res (pydict * pydict) :=
  match all_keys with
  | [] => Ok (typedef, kwargs)
  | k :: all_keys' =>
      match py_in (JStr k) props with
      | Raise e => Raise e
      | Ok false => absorb props all_keys' typedef kwargs
      | Ok true =>
          match dict_get k kwargs with
          | None => Raise (KeyError k)
          | Some v =>
              absorb props all_keys' (dict_set k v typedef) (dict_del k kwargs)
          end
      end
  end.

(** [update_typedef]: what it returns or raises, and the instance as the
    call leaves it. *)
Definition update_typedef (self : instance) (kwargs : pydict)
  : res pydict * instance :=
  let typename0 := default JNull (dict_get "typename" (self_typedef self)) in
  let typename1 := default JNull (dict_get "typename" kwargs) in
  if py_truthy typename1 && py_truthy typename0
     && negb (json_eqb typename1 typename0)
  then
    (Raise (CisTypeError "Cannot update typedef for type '%s' to be '%s'."),
     self)
  else
    match json_item "properties" definition_schema with
    | Raise e => (Raise e, self)
    | Ok props =>
        match absorb props (dict_keys kwargs) (self_typedef self) kwargs with
        | Raise e => (Raise e, self)
        | Ok (typedef, kwargs') =>
            let self' := {| self_typedef := typedef |} in
            if validate_definition (JObject typedef) then (Ok kwargs', self')
            else (Raise ValidationError, self')
        end
    end.

(** [__init__] with the keywords [typedef]: the new instance, or the
    exception. *)
Definition init (typedef : pydict) : res instance :=
  let self := {| self_typedef := [] |} in
  let typedef := dict_setdefault "typename" (JStr name) typedef in
  match update_typedef self typedef with
  | (Ok _, self') => Ok self'
  | (Raise e, _) => Raise e
  end.

End Instance.

End Typedef.

(** ** More collaborators for exercising the codec *)

Module Loopback.
Import Py Json CisBaseType Examples.
Local Open Scope list_scope.


(** The header of a message of the raw type sent with no keywords. *)
Definition raw_header : bytes :=
  unicode2bytes (dumps (JObject [("typename", JStr "raw")])).


(** A type of byte strings that carry a unit: the definition must name
    the unit. *)
Definition unit_type : CisType bytes := {|
  name := "quantity";
  description := "Bytes with a unit.";
  properties := [("units", JObject [("type", JStr "string")])];
  definition_properties := ["units"];
  metadata_properties := [];
  empty_msg := [];
  encode_type := fun _ => Ok [];
  encode_data := fun obj _ => Ok (Bytes obj);
  decode_data := fun data _ => Ok data;
  transform_type := fun obj _ => Ok obj;
  check_meta_compat := default_check_meta_compat;
|}.

End Loopback.

(** ** [yggdrasil/communication/__init__.py] *)

Module Communication.
Import Py Json.
Local Open Scope list_scope.

Definition determine_suffix (no_suffix reverse_names : bool)
  (direction : string) : res string :=
  if negb (String.eqb direction "send" || String.eqb direction "recv") then
    Raise (ValueError "Unrecognized message direction: %s")
  else if no_suffix then Ok EmptyString
  else if (String.eqb direction "send" && negb reverse_names)
          || (String.eqb direction "recv" && reverse_names)
  then Ok "_OUT"
  else Ok "_IN".

(** What a [with open_file_comm(...)] block does to the file comm. *)
Inductive file_event : Type :=
| FileCommCreated (filetype : string) (args : pydict)
| FileCommClosed.

(** The component registry and the comm classes, which are not in this
    module: [import_component('file', filetype)] finds the class or raises,
    and the constructor of the class returns or raises. *)
Class FileComponents : Type := {
  import_file_component : string -> option exn;
  file_comm_init : string -> pydict -> option exn;
}.

(** The keywords [open_file_comm] derives from the mode. *)
Definition mode_kwargs (mode : string) (kwargs : pydict) : res pydict :=
  if String.eqb mode "r" then Ok (dict_set "direction" (JStr "recv") kwargs)
  else if String.eqb mode "w" || String.eqb mode "a" then
    let kwargs := dict_set "direction" (JStr "send") kwargs in
    if String.eqb mode "a" then Ok (dict_set "append" (JBool true) kwargs)
    else Ok kwargs
  else Raise (ValueError "Unsupported mode: '%s'").

(** [with open_file_comm(fname, mode, filetype, kwargs) as comm: body]:
    the events on the comm and the outcome of the statement.  [body] is
    what the block does once it has the comm. *)
Definition open_file_comm {F : FileComponents} {A : Type}
  (fname mode filetype : string) (kwargs : pydict) (body : res A)
  : list file_event * res A :=
  match import_file_component filetype with
  | Some e => ([], Raise e)
  | None =>
      match mode_kwargs mode kwargs with
      | Raise e => ([], Raise e)
      | Ok kwargs =>
          if dict_mem "address" kwargs then
            ([], Raise (TypeError "got multiple values for keyword argument"))
          else
            let args := ("address", JStr fname) :: kwargs in
            match file_comm_init filetype args with
            | Some e => ([], Raise e)
            | None =>
                ([FileCommCreated filetype args; FileCommClosed], body)
            end
      end
  end.

End Communication.

(** ** [cis_interface/communication/AsciiTableComm.py] *)

Module AsciiTableComm.
Import Py Json.
Local Open Scope list_scope.

(** The list [file_keys] of [__init__].  The source writes the last two
    names without a comma between them, and Python joins adjacent string
    literals. *)
Definition file_keys : list string :=
  ["format_str"; "dtype"; "column_names"; ("column" ++ "use_astropy")%string].

(** The loop of [__init__]: a keyword named in [keys] is popped into
    [file_kwargs]. *)
Fixpoint pop_file_kwargs (keys : list string) (file_kwargs kwargs : pydict)
  : pydict * pydict :=
  match keys with
  | [] => (file_kwargs, kwargs)
  | k :: keys' =>
      match dict_get k kwargs with
      | Some v =>
          pop_file_kwargs keys' (dict_set k v file_kwargs)
            (Typedef.dict_del k kwargs)
      | None => pop_file_kwargs keys' file_kwargs kwargs
      end
  end.

(** What the parent class [AsciiFileComm] sets up. *)
Record file_comm : Type := {
  address : json;
  direction : string;
  append : bool;
  file_kwargs : pydict;
}.

(** An [AsciiTable], by the arguments of its constructor. *)
Record table : Type := {
  table_address : json;
  table_mode : string;
  table_kwargs : pydict;
}.

(** The parent class and the table class, which are not in this module. *)
Class Parent : Type := {
  (** [AsciiFileComm.__init__(name, **kwargs)] *)
  base_init : string -> pydict -> res file_comm;
  (** [AsciiFileComm.opp_comm_kwargs()] *)
  base_opp_comm_kwargs : file_comm -> pydict;
  (** an attribute of the table: [format_str], [dtype], ... *)
  table_attr : table -> string -> json;
}.

Record comm : Type := {
  parent : file_comm;
  as_array : bool;
  file : table;
  is_open : bool;
  (** the keywords that went to the parent's [__init__] *)
  parent_kwargs : pydict;
}.

Section Comm.
Context {P : Parent}.

Definition init (name : string) (as_array dont_open : bool) (kwargs : pydict)
  : res comm :=
  let '(file_kw, kwargs) := pop_file_kwargs file_keys [] kwargs in
  if dict_mem "skip_AsciiFile" kwargs then
    Raise (TypeError "got multiple values for keyword argument")
  else
    let kwargs :=
      ("dont_open", JBool true) :: ("skip_AsciiFile", JBool true) :: kwargs in
    match base_init name kwargs with
    | Raise e => Raise e
    | Ok base =>
        let base := {| address := address base;
                       direction := direction base;
                       append := append base;
                       file_kwargs := dict_update (file_kwargs base) file_kw |} in
        let mode :=
          if String.eqb (direction base) "recv" then "r"
          else if append base then "a" else "w" in
        Ok {| parent := base;
              as_array := as_array;
              file := {| table_address := address base;
                         table_mode := mode;
                         table_kwargs := file_kwargs base |};
              is_open := negb dont_open;
              parent_kwargs := kwargs |}
    end.

Definition opp_comm_kwargs (self : comm) : pydict :=
  let kwargs := base_opp_comm_kwargs (parent self) in
  let kwargs := dict_set "format_str" (table_attr (file self) "format_str") kwargs in
  let kwargs := dict_set "dtype" (table_attr (file self) "dtype") kwargs in
  let kwargs :=
    dict_set "column_names" (table_attr (file self) "column_names") kwargs in
  let kwargs := dict_set "column" (table_attr (file self) "column") kwargs in
  dict_set "use_astropy" (table_attr (file self) "use_astropy") kwargs.

End Comm.

End AsciiTableComm.

(** ** [RPCRequestDriver.py]: construction and environment *)

Module RequestDriverSetup.
Import Py Json CommBase RPCRequestDriver.
Local Open Scope list_scope.

Definition IndexError : exn := OtherError "IndexError".

(** The parent class [ConnectionDriver], which is not in this module:
    its [__init__] builds the comms from the keywords and returns the
    driver, of which the request driver reads [ocomm._commtype]. *)
Class ParentDriver : Type := {
  base_init : string -> pydict -> res (state * json);
}.

(** [outputs[0]['is_client'] = True; outputs[0]['close_on_eof_send'] =
    False] *)
Definition mark_client (outputs : json) : res json :=
  match outputs with
  | JList [] => Raise IndexError
  | JList (JObject o :: rest) =>
      Ok (JList
            (JObject
               (dict_set "close_on_eof_send" (JBool false)
                  (dict_set "is_client" (JBool true) o))
             :: rest))
  | JList (_ :: _) =>
      Raise (TypeError "object does not support item assignment")
  | JObject _ => Raise (KeyError "0")
  | _ => Raise (TypeError "object is not subscriptable")
  end.

(** The keywords that [__init__] passes to the parent class. *)
Definition init_kwargs (kwargs : pydict) : res pydict :=
  let inputs := default (JList [JObject []]) (dict_get "inputs" kwargs) in
  let kwargs := dict_set "inputs" inputs kwargs in
  let outputs := default (JList [JObject []]) (dict_get "outputs" kwargs) in
  match mark_client outputs with
  | Raise e => Raise e
  | Ok outputs => Ok (dict_set "outputs" outputs kwargs)
  end.

Definition with_response (response_kwargs : pydict) (st : state) : state :=
  {| name := name st;
     models_input := models_input st;
     models_output := models_output st;
     response_kwargs := response_kwargs;
     response_drivers := [];
     block_response := false;
     ocomm_is_closed := ocomm_is_closed st;
     is_comm_open := is_comm_open st;
     was_break := was_break st;
     icomm_empty_obj_recv := icomm_empty_obj_recv st;
     trace := trace st |}.

Definition init {B : ParentDriver} (model_request_name : string)
  (response_kwargs : option pydict) (kwargs : pydict) : res state :=
  match init_kwargs kwargs with
  | Raise e => Raise e
  | Ok kwargs =>
      let response_kwargs := default [] response_kwargs in
      match base_init model_request_name kwargs with
      | Raise e => Raise e
      | Ok (st, ocomm_commtype) =>
          Ok (with_response
                (dict_setdefault "commtype" ocomm_commtype response_kwargs)
                st)
      end
  end.

(** The loop of [model_env]: [out[k]['YGG_IS_SERVER'] = 'True']. *)
Fixpoint mark_server (keys : list string) (out : pydict) : res pydict :=
  match keys with
  | [] => Ok out
  | k :: keys' =>
      match dict_get k out with
      | None => Raise (KeyError k)
      | Some (JObject env) =>
          mark_server keys'
            (dict_set k (JObject (dict_set "YGG_IS_SERVER" (JStr "True") env))
               out)
      | Some _ => Raise (TypeError "object does not support item assignment")
      end
  end.

(** [model_env], from the parent's [model_env] and [ocomm.model_env]. *)
Definition model_env (base_model_env ocomm_model_env : pydict) : res pydict :=
  mark_server (Typedef.dict_keys ocomm_model_env) base_model_env.

End RequestDriverSetup.

(** ** Collaborators for exercising the comm modules *)

Module CommExamples.
Import Py Json Communication AsciiTableComm.
Local Open Scope list_scope.

(** A registry that knows every file type, with constructors that do not
    fail. *)
Definition any_file : FileComponents := {|
  import_file_component := fun _ => None;
  file_comm_init := fun _ _ => None;
|}.

(** A parent class that takes the address and the direction from its
    keywords and passes no table keywords of its own. *)
Definition plain_parent : Parent := {|
  base_init := fun _ kwargs =>
    Ok {| address := default (JStr "table.txt") (dict_get "address" kwargs);
          direction :=
            match dict_get "direction" kwargs with
            | Some (JStr d) => d
            | _ => "send"
            end;
          append := false;
          file_kwargs := [] |};
  base_opp_comm_kwargs := fun base =>
    [("address", address base); ("direction", JStr "recv")];
  table_attr := fun t k => default JNull (dict_get k (table_kwargs t));
|}.

(** A parent driver that names the driver and reports a fixed comm
    type. *)
Definition plain_driver : RequestDriverSetup.ParentDriver := {|
  RequestDriverSetup.base_init := fun nm _ =>
    Ok ({| RPCRequestDriver.name := nm;
           RPCRequestDriver.models_input := ∅;
           RPCRequestDriver.models_output := ∅;
           RPCRequestDriver.response_kwargs := [];
           RPCRequestDriver.response_drivers := [];
           RPCRequestDriver.block_response := true;
           RPCRequestDriver.ocomm_is_closed := false;
           RPCRequestDriver.is_comm_open := true;
           RPCRequestDriver.was_break := false;
           RPCRequestDriver.icomm_empty_obj_recv := PyNone;
           RPCRequestDriver.trace := [] |}, JStr "zmq");
|}.

(** A request that lacks its [request_id]. *)
Definition untagged : CommBase.CommMessage := {|
  CommBase.args := PyBytes (unicode2bytes "ping");
  CommBase.flag := CommBase.FLAG_SUCCESS;
  CommBase.header := [("response_address", JStr "addr1")];
|}.

(** A table comm for receiving, with a format and a column. *)
Definition reader : comm := {|
  parent := {| address := JStr "table.txt"; direction := "recv";
               append := false; file_kwargs := [] |};
  as_array := false;
  file := {| table_address := JStr "table.txt"; table_mode := "r";
             table_kwargs := [("format_str", JStr "%d"); ("column", JStr ",")] |};
  is_open := true;
  parent_kwargs := [];
|}.

End CommExamples.


(** * Properties of the typed message codec *)

Module CodecProperties.
Import Py Json CisBaseType Examples.
Local Open Scope list_scope.

Section Generic.
Context {Obj : Type} {T : CisType Obj} {E : Externals}.

(** [check_decoded] goes through [encode_type] once, whatever it answers. *)
Lemma check_decoded_log (obj : Obj) (typedef : option pydict) :
  (check_decoded obj typedef).1 = [CallEncodeType obj].
Proof.
  unfold check_decoded.
  destruct (encode_type obj) as [datadef | e]; [reflexivity |].
  destruct e; reflexivity.
Qed.

(** An object passes [check_decoded] exactly when [encode_type] describes it
    and that description passes [check_encoded]. *)
Lemma check_decoded_true_inv (obj : Obj) (typedef : option pydict) :
  (check_decoded obj typedef).2 = Ok true ->
  exists datadef,
    encode_type obj = Ok datadef /\
    check_encoded (JObject (dict_set "typename" (JStr name) datadef)) typedef
    = Ok true.
Proof.
  unfold check_decoded.
  destruct (encode_type obj) as [datadef | e]; simpl.
  - intros H. exists datadef. split; [reflexivity | exact H].
  - destruct e; simpl; discriminate.
Qed.

Lemma check_decoded_surj (obj : Obj) (typedef : option pydict) :
  check_decoded obj typedef
  = ([CallEncodeType obj], (check_decoded obj typedef).2).
Proof.
  rewrite <- (check_decoded_log obj typedef).
  destruct (check_decoded obj typedef); reflexivity.
Qed.

(** C4: for every type and every configured codec, [deserialize] of the
    zero-length byte string returns the pair of the empty sentinel object and
    the empty header mapping; it does not raise, and none of the type's
    methods (so neither [decode] nor anything under it) is called. *)
Theorem deserialize_empty (self : instance) :
  deserialize self (PyBytes []) = ([], Ok (empty_msg, JObject [])).
Proof. reflexivity. Qed.

(** C10: [deserialize] raises [TypeError] on every input that is not of
    bytes type, and [ValueError] on every non-empty bytes input that does
    not contain the separator; in both cases it returns nothing and none of
    the type's methods has been called, so no object was decoded. *)
Theorem deserialize_fails_fast (self : instance) (msg : pyobj) :
  (isinstance_bytes msg = false ->
   deserialize self msg
   = ([], Raise (TypeError "Message to be deserialized is not bytes type.")))
  /\
  (forall b : bytes,
     msg = PyBytes b -> b <> [] -> contains sep b = false ->
     deserialize self msg
     = ([], Raise (ValueError "Separator '%s' not in message."))).
Proof.
  split.
  - intros Hty. destruct msg; simpl in Hty; try discriminate; reflexivity.
  - intros b -> Hne Hsep. unfold deserialize.
    destruct b as [| c b']; [congruence |].
    cbn [length Nat.eqb]. rewrite Hsep. reflexivity.
Qed.

(** C5: when [check_decoded obj typedef] answers [False], [encode] raises
    the error of a type mismatch ([ValueError], "Object is not correct type
    for encoding.") and returns no (metadata, payload) pair; the object was
    neither transformed nor encoded, the only method called being the
    [encode_type] of the check itself. *)
Theorem encode_rejects_invalid (obj : Obj) (typedef : option pydict) :
  (check_decoded obj typedef).2 = Ok false ->
  encode obj typedef
  = ([CallEncodeType obj],
     Raise (ValueError "Object is not correct type for encoding.")).
Proof.
  intros H. unfold encode.
  rewrite (check_decoded_surj obj typedef), H. reflexivity.
Qed.

(** C3 (as amended): for a type whose [transform_type] leaves valid objects
    as they are and whose [decode_data] inverts [encode_data] (which yields
    bytes), every object valid under a definition round-trips: [encode]
    returns a (metadata, payload) pair, [decode] of that pair under the same
    definition returns the object, and the decoded object passes
    [check_decoded]. *)
Theorem encode_decode_roundtrip (obj : Obj) (typedef : option pydict) :
  (forall o d, (check_decoded o d).2 = Ok true -> transform_type o d = Ok o) ->
  (forall o md,
     encode_type o = Ok md ->
     exists b,
       encode_data o (dict_set "typename" (JStr name) md) = Ok (Bytes b) /\
       decode_data b (JObject (dict_set "typename" (JStr name) md)) = Ok o) ->
  (check_decoded obj typedef).2 = Ok true ->
  exists metadata data obj',
    (encode obj typedef).2 = Ok (metadata, data) /\
    (decode (JObject metadata) data typedef).2 = Ok obj' /\
    obj' = obj /\
    (check_decoded obj' typedef).2 = Ok true.
Proof.
  intros Htr Hdata Hvalid.
  destruct (check_decoded_true_inv obj typedef Hvalid) as (md & Hty & Henc).
  destruct (Hdata obj md Hty) as (b & Hed & Hdd).
  exists (dict_set "typename" (JStr name) md), b, obj.
  pose proof (Htr obj typedef Hvalid) as Hid.
  repeat split; try assumption.
  - unfold encode. rewrite (check_decoded_surj obj typedef), Hvalid.
    cbn. rewrite Hid. cbn. rewrite Hty. cbn. rewrite Hed. cbn.
    rewrite Henc. reflexivity.
  - unfold decode. cbn. rewrite Henc. cbn. rewrite Hdd. cbn.
    rewrite (check_decoded_surj obj typedef), Hvalid. cbn.
    rewrite Hid. reflexivity.
Qed.

End Generic.

(** *** Splitting an envelope at the separator *)

Lemma unicode2bytes_app (a b : string) :
  unicode2bytes (a ++ b)%string = unicode2bytes a ++ unicode2bytes b.
Proof.
  unfold unicode2bytes, list_byte_of_string.
  induction a as [| c a IH]; simpl; [reflexivity |].
  f_equal. exact IH.
Qed.

Lemma startswith_app_self (p d : bytes) : startswith p (p ++ d) = true.
Proof.
  induction p as [| a p IH]; simpl; [reflexivity |].
  rewrite byte_dec_lb by reflexivity. exact IH.
Qed.

(** A pattern that starts [h ++ x] either starts [h] already, or has [h] as
    a prefix. *)
Lemma startswith_app_inv (p h x : bytes) :
  startswith p (h ++ x) = true ->
  startswith p h = true \/ exists q, p = h ++ q.
Proof.
  revert h. induction p as [| a p IH]; intros h H.
  - left. reflexivity.
  - destruct h as [| b h]; [right; exists (a :: p); reflexivity |].
    simpl in H. apply andb_prop in H as [Hab Hrest].
    apply byte_dec_bl in Hab. subst b.
    destruct (IH h Hrest) as [Hs | [q ->]].
    + left. simpl. rewrite byte_dec_lb by reflexivity. exact Hs.
    + right. exists q. reflexivity.
Qed.

Lemma find_none_startswith (p s : bytes) :
  find p s = None -> startswith p s = false.
Proof.
  destruct s; simpl; destruct (startswith p _); congruence.
Qed.

(** When the pattern does not occur in [h] and the last byte of [h] is not a
    byte of the pattern, the first occurrence in [h ++ p ++ d] is the one
    right after [h]. *)
Lemma find_app (p d h : bytes) :
  find p h = None ->
  (forall c, last h = Some c -> c ∉ p) ->
  find p (h ++ p ++ d) = Some (length h).
Proof.
  induction h as [| b h IH]; intros Hnone Hlast.
  - cbn [app length]. destruct (p ++ d) eqn:Hpd; simpl;
      rewrite <- ?Hpd, startswith_app_self; reflexivity.
  - pose proof (find_none_startswith _ _ Hnone) as Hs.
    assert (Hs' : startswith p ((b :: h) ++ p ++ d) = false).
    { destruct (startswith p ((b :: h) ++ p ++ d)) eqn:Hx; [| reflexivity].
      apply startswith_app_inv in Hx as [Hx | [q ->]]; [congruence |].
      exfalso. destruct (last (b :: h)) as [c |] eqn:Hc.
      - apply (Hlast c eq_refl). apply elem_of_app. left.
        apply last_Some in Hc as [l' ->]. apply elem_of_app. right.
        apply list_elem_of_singleton. reflexivity.
      - apply last_None in Hc. discriminate. }
    change ((b :: h) ++ p ++ d) with (b :: (h ++ p ++ d)) in *.
    cbn [find]. rewrite Hs'.
    rewrite IH; [reflexivity | |].
    + simpl in Hnone. rewrite Hs in Hnone.
      destruct (find p h); [discriminate | reflexivity].
    + intros c Hc. apply Hlast.
      destruct h as [| b' h']; [discriminate |]. exact Hc.
Qed.

Lemma split1_app (p d h : bytes) :
  contains p h = false ->
  (forall c, last h = Some c -> c ∉ p) ->
  split1 p (h ++ p ++ d) = Some (h, d).
Proof.
  intros Hc Hlast. unfold split1.
  rewrite find_app; [| | exact Hlast].
  - simpl. f_equal. f_equal.
    + apply take_app_length.
    + rewrite drop_app_add. apply drop_app_length.
  - unfold contains in Hc. destruct (find p h); [discriminate | reflexivity].
Qed.

(** The header of an envelope is a JSON object, so it ends with a brace. *)
Lemma dumps_object_last (d : pydict) :
  exists body, unicode2bytes (dumps (JObject d)) = body ++ ["}"%byte].
Proof.
  cbn [dumps].
  set (inner := join ", " _).
  exists (unicode2bytes ("{" ++ inner)%string).
  change ("{" ++ inner ++ "}")%string with (("{" ++ inner) ++ "}")%string.
  rewrite unicode2bytes_app. reflexivity.
Qed.

Section Envelope.
Context {Obj : Type} {T : CisType Obj} {E : Externals}.

(** C7 (as amended): [serialize] does no escaping of the separator.  For a
    header whose JSON text does not contain the separator token, the
    envelope is that text, the separator and the payload, and splitting the
    envelope at the first occurrence of the separator recovers exactly the
    header JSON and the payload bytes. *)
Theorem split_recovers_header_and_payload
    (self : instance) (obj : Obj) (kwargs metadata : pydict) (data : bytes) :
  (encode obj (Some (self_typedef self))).2 = Ok (metadata, data) ->
  contains sep (unicode2bytes (dumps (JObject (dict_update metadata kwargs))))
  = false ->
  (serialize self obj kwargs).2
  = Ok (unicode2bytes (dumps (JObject (dict_update metadata kwargs)))
          ++ sep ++ data)
  /\ split1 sep
       (unicode2bytes (dumps (JObject (dict_update metadata kwargs)))
          ++ sep ++ data)
     = Some (unicode2bytes (dumps (JObject (dict_update metadata kwargs))),
             data).
Proof.
  intros Henc Hsep. split.
  - unfold serialize, bind.
    destruct (encode obj (Some (self_typedef self))) as [l r].
    simpl in Henc. subst r. reflexivity.
  - apply split1_app; [exact Hsep |].
    intros c Hc.
    destruct (dumps_object_last (dict_update metadata kwargs)) as [body Hb].
    rewrite Hb, last_snoc in Hc. injection Hc as <-.
    unfold sep. vm_compute. intros Hin.
    repeat (apply elem_of_cons in Hin as [Hin | Hin]; [discriminate |]).
    apply elem_of_nil in Hin. exact Hin.
Qed.

End Envelope.

(** A raw-bytes message with no separator in its header. *)
Lemma split_recovers_header_and_payload_witness :
  (@serialize _ raw_type externals raw_codec (unicode2bytes "ping")
     [("model", JStr "A")]).2
  = Ok (unicode2bytes
          (dumps (JObject (dict_update [("typename", JStr "raw")]
                             [("model", JStr "A")])))
          ++ sep ++ unicode2bytes "ping")
  /\ split1 sep
       (unicode2bytes
          (dumps (JObject (dict_update [("typename", JStr "raw")]
                             [("model", JStr "A")])))
          ++ sep ++ unicode2bytes "ping")
     = Some (unicode2bytes
               (dumps (JObject (dict_update [("typename", JStr "raw")]
                                  [("model", JStr "A")]))),
             unicode2bytes "ping").
Proof.
  apply (@split_recovers_header_and_payload _ raw_type externals raw_codec
           (unicode2bytes "ping") [("model", JStr "A")]
           [("typename", JStr "raw")] (unicode2bytes "ping"));
    vm_compute; reflexivity.
Defined.

(** C7 fails as stated: a header value may hold the separator text, which
    [json.dumps] copies unescaped; the first occurrence of the separator is
    then inside the header, and the split returns neither the header JSON
    nor the payload. *)
Lemma separator_in_header_counterexample :
  let kwargs := [("note", JStr ":CIS_TAG:")] in
  let payload := unicode2bytes "x" in
  let header_json :=
    unicode2bytes
      (dumps (JObject (dict_update [("typename", JStr "raw")] kwargs))) in
  (@serialize _ raw_type externals raw_codec payload kwargs).2
  = Ok (header_json ++ sep ++ payload)
  /\ contains sep header_json = true
  /\ split1 sep (header_json ++ sep ++ payload) <> Some (header_json, payload).
Proof. vm_compute. repeat split; discriminate. Qed.

(** The hypothesis of [deserialize_fails_fast], met by a text string and by
    bytes that lack the separator. *)
Lemma deserialize_fails_fast_witness :
  @deserialize _ raw_type externals raw_codec (PyStr "abc")
  = ([], Raise (TypeError "Message to be deserialized is not bytes type."))
  /\ @deserialize _ raw_type externals raw_codec (PyBytes (unicode2bytes "abc"))
     = ([], Raise (ValueError "Separator '%s' not in message.")).
Proof.
  split.
  - apply (proj1 (@deserialize_fails_fast _ raw_type externals raw_codec
                    (PyStr "abc"))).
    reflexivity.
  - apply (proj2 (@deserialize_fails_fast _ raw_type externals raw_codec
                    (PyBytes (unicode2bytes "abc")))
             (unicode2bytes "abc"));
      [reflexivity | discriminate | vm_compute; reflexivity].
Defined.

(** An object of the raw type checked against the definition of another
    type fails [check_decoded]. *)
Lemma encode_rejects_invalid_witness :
  @encode _ raw_type externals (unicode2bytes "x")
    (Some [("typename", JStr "other")])
  = ([CallEncodeType (unicode2bytes "x")],
     Raise (ValueError "Object is not correct type for encoding.")).
Proof.
  apply (@encode_rejects_invalid _ raw_type externals).
  vm_compute. reflexivity.
Defined.

(** The raw type meets the two conditions of [encode_decode_roundtrip]. *)
Lemma encode_decode_roundtrip_witness :
  exists metadata data obj',
    (@encode _ raw_type externals (unicode2bytes "ping")
       (Some (self_typedef raw_codec))).2 = Ok (metadata, data) /\
    (@decode _ raw_type externals (JObject metadata) data
       (Some (self_typedef raw_codec))).2 = Ok obj' /\
    obj' = unicode2bytes "ping" /\
    (@check_decoded _ raw_type externals obj'
       (Some (self_typedef raw_codec))).2 = Ok true.
Proof.
  apply (@encode_decode_roundtrip _ raw_type externals).
  - intros o d _. reflexivity.
  - intros o md _. exists o. split; reflexivity.
  - vm_compute. reflexivity.
Defined.

(** C3 fails as stated: an object of five bytes is valid under the
    definition of the four-wide type, [encode] succeeds on it, and [decode]
    of the result returns the object cut to four bytes, not the object. *)
Lemma roundtrip_counterexample :
  let obj := unicode2bytes "hello" in
  let typedef := Some (self_typedef fixed4_codec) in
  (@check_decoded _ fixed4_type externals obj typedef).2 = Ok true
  /\ exists metadata data,
       (@encode _ fixed4_type externals obj typedef).2 = Ok (metadata, data)
       /\ (@decode _ fixed4_type externals (JObject metadata) data typedef).2
          = Ok (unicode2bytes "hell")
       /\ unicode2bytes "hell" <> obj.
Proof.
  split; [vm_compute; reflexivity |].
  exists [("typename", JStr "fixed4")], (unicode2bytes "hell").
  repeat split; try (vm_compute; reflexivity). discriminate.
Qed.

End CodecProperties.

(** * Properties of the RPC request driver *)

Module DriverProperties.
Import Py Json CommBase RPCRequestDriver Runs.
Local Open Scope list_scope.

(** Events that a call appended are what [emitted] returns. *)
Lemma emitted_app (st st' : state) (evs : list event) :
  trace st' = trace st ++ evs -> emitted st st' = evs.
Proof. intros H. unfold emitted. rewrite H. apply drop_app_length. Qed.

Lemma emitted_refl (st : state) : emitted st st = [].
Proof. apply emitted_app. symmetry. apply app_nil_r. Qed.

Section Pruning.
Context {C : Collaborators}.

(** [pop_all] removes the indices from the largest down. *)
Lemma pop_all_cons (i : nat) (idx : list nat) (l : list RPCResponseDriver) :
  pop_all (i :: idx) l = delete i (pop_all idx l).
Proof. unfold pop_all. simpl. rewrite foldl_app. reflexivity. Qed.

(** The scan touches nothing but the trace, where it records the calls of
    [cleanup], and the removal of the indices it returns leaves the drivers
    that are not prunable, in their order. *)
Lemma scan_spec (l pre : list RPCResponseDriver) (st : state) :
  let r := scan (length pre) l st in
  pop_all r.1 (pre ++ l) = pre ++ List.filter (fun x => negb (prunable x)) l
  /\ trace r.2 = trace st ++ map EvCleanup (List.filter prunable l)
  /\ response_drivers r.2 = response_drivers st
  /\ was_break r.2 = was_break st.
Proof.
  revert pre st. induction l as [| x l IH]; intros pre st; cbn [scan].
  - cbn. rewrite !app_nil_r. auto.
  - replace (S (length pre)) with (length (pre ++ [x]))
      by (rewrite length_app; simpl; lia).
    cbn [List.filter]. destruct (prunable x) eqn:Hx; cbn [negb].
    + specialize (IH (pre ++ [x]) (emit (EvCleanup x) st)).
      destruct (scan (length (pre ++ [x])) l (emit (EvCleanup x) st))
        as [idx st'] eqn:Hscan.
      cbn [fst snd] in *. destruct IH as (Hpop & Htr & Hrd & Hwb).
      repeat split.
      * rewrite pop_all_cons.
        replace (pre ++ x :: l) with ((pre ++ [x]) ++ l)
          by (rewrite <- app_assoc; reflexivity).
        rewrite Hpop, <- app_assoc. cbn [app]. apply delete_middle.
      * rewrite Htr. cbn. rewrite <- app_assoc. reflexivity.
      * rewrite Hrd. reflexivity.
      * rewrite Hwb. reflexivity.
    + specialize (IH (pre ++ [x]) st).
      destruct IH as (Hpop & Htr & Hrd & Hwb).
      repeat split; try assumption.
      replace (pre ++ x :: l) with ((pre ++ [x]) ++ l)
        by (rewrite <- app_assoc; reflexivity).
      rewrite Hpop, <- app_assoc. reflexivity.
Qed.

(** C8: a prune pass keeps exactly the response drivers that are not
    prunable and removes (after [cleanup]) exactly those that are no longer
    running and whose input comm confirms the receive and whose output comm
    confirms the send; a driver that is still running or has an unconfirmed
    comm stays.  [run_loop] prunes after the parent's loop body unless the
    loop ended with [was_break], in which case the pass is skipped. *)
Theorem prune_removes_exactly_finished (st : state) :
  response_drivers (prune_response_drivers st)
  = List.filter (fun x => negb (prunable x)) (response_drivers st)
  /\ emitted st (prune_response_drivers st)
     = map EvCleanup (List.filter prunable (response_drivers st))
  /\ (forall x,
        x ∈ response_drivers st ->
        (x ∈ response_drivers (prune_response_drivers st)
         <-> is_alive x = true \/ icomm_is_confirmed_recv x = false
             \/ ocomm_is_confirmed_send x = false))
  /\ run_loop st
     = (if was_break (base_run_loop st) then base_run_loop st
        else prune_response_drivers (base_run_loop st)).
Proof.
  assert (Hkeep :
    response_drivers (prune_response_drivers st)
    = List.filter (fun x => negb (prunable x)) (response_drivers st)
    /\ trace (prune_response_drivers st)
       = trace st ++ map EvCleanup (List.filter prunable (response_drivers st))).
  { unfold prune_response_drivers.
    pose proof (scan_spec (response_drivers st) [] st) as H.
    cbn [length app] in H.
    destruct (scan 0 (response_drivers st) st) as [idx st'].
    cbn [fst snd] in H. destruct H as (Hpop & Htr & Hrd & _).
    cbn. rewrite Hrd. split; assumption. }
  destruct Hkeep as [Hrd Htr].
  split; [exact Hrd |]. split; [apply emitted_app; exact Htr |]. split.
  - intros x Hx. rewrite Hrd, list_elem_of_In, filter_In, <- list_elem_of_In.
    unfold prunable.
    destruct (is_alive x), (icomm_is_confirmed_recv x),
      (ocomm_is_confirmed_send x); cbn; intuition congruence.
  - unfold run_loop. destruct (was_break (base_run_loop st)); reflexivity.
Qed.

End Pruning.

(** *** Dictionaries *)

Lemma dict_get_set_eq (k : string) (v : json) (d : pydict) :
  dict_get k (dict_set k v d) = Some v.
Proof.
  induction d as [| [k' v'] d IH]; simpl.
  - rewrite String.eqb_refl. reflexivity.
  - destruct (String.eqb k k') eqn:Hk; simpl.
    + rewrite String.eqb_refl. reflexivity.
    + rewrite Hk. exact IH.
Qed.

Lemma dict_get_set_ne (k k' : string) (v : json) (d : pydict) :
  k <> k' -> dict_get k (dict_set k' v d) = dict_get k d.
Proof.
  intros Hne. induction d as [| [k0 v0] d IH]; simpl.
  - apply String.eqb_neq in Hne. rewrite Hne. reflexivity.
  - destruct (String.eqb k' k0) eqn:Hk; simpl.
    + apply String.eqb_eq in Hk. subst k0.
      apply String.eqb_neq in Hne. rewrite Hne. reflexivity.
    + destruct (String.eqb k k0); [reflexivity | exact IH].
Qed.

Lemma dict_mem_setdefault_same (k : string) (v : json) (d : pydict) :
  dict_mem k (dict_setdefault k v d) = true.
Proof.
  unfold dict_mem, dict_setdefault.
  destruct (dict_get k d) eqn:Hg.
  - rewrite Hg. reflexivity.
  - rewrite dict_get_set_eq. reflexivity.
Qed.

Lemma dict_mem_setdefault_keep (k k' : string) (v : json) (d : pydict) :
  dict_mem k d = true -> dict_mem k (dict_setdefault k' v d) = true.
Proof.
  unfold dict_mem, dict_setdefault. intros H.
  destruct (dict_get k' d) eqn:Hg; [exact H |].
  destruct (String.eqb_spec k k') as [-> | Hne].
  - rewrite dict_get_set_eq. reflexivity.
  - rewrite dict_get_set_ne by exact Hne. exact H.
Qed.

Section Dispatch.
Context {C : Collaborators}.

Lemma set_last_snoc (l : list RPCResponseDriver) (x y : RPCResponseDriver) :
  set_last y (l ++ [x]) = l ++ [y].
Proof.
  unfold set_last. rewrite length_app. cbn [length].
  replace (pred (length l + 1)) with (length l + 0) by lia.
  rewrite insert_app_r. reflexivity.
Qed.

Lemma send_message_dispatch (msg : CommMessage) (kw : send_kwargs)
    (st : state) :
  flag msg <> FLAG_EOF -> dispatch msg kw st (send_message msg kw st).
Proof.
  intros Hflag. unfold send_message.
  destruct (ocomm_is_closed st) eqn:Hclosed.
  { apply dispatch_refused. left. exact Hclosed. }
  assert (Hne : flag_eqb (flag msg) FLAG_EOF = false)
    by (destruct (flag msg); [reflexivity | congruence | reflexivity ..]).
  rewrite Hne. cbn [negb].
  destruct (is_comm_open st) eqn:Hopen; cbn [negb orb];
    [| apply dispatch_refused; right; left; exact Hopen].
  destruct (block_response st) eqn:Hblock;
    [apply dispatch_refused; right; right; exact Hblock |].
  destruct (dict_get "response_address" (header msg)) as [address |] eqn:Ha;
    [| apply dispatch_key_error; [set_solver | exact Ha]].
  destruct (dict_get "request_id" (header msg)) as [request_id |] eqn:Hr;
    [| apply dispatch_key_error; [set_solver | exact Hr]].
  destruct (dict_get "commtype" (header msg)) as [commtype |] eqn:Hc;
    [| apply dispatch_key_error; [set_solver | exact Hc]].
  fold (route_kwargs st commtype).
  destruct (new_response_driver address request_id (route_kwargs st commtype))
    as [drv | e] eqn:Hnew.
  - destruct (start drv) as [drv' | e] eqn:Hstart.
    + cbn [base_send_message fst snd].
      eapply (dispatch_sent msg kw st address request_id commtype drv drv');
        try eassumption; try reflexivity.
      * apply emitted_app. cbn. rewrite <- !app_assoc. reflexivity.
      * cbn. apply set_last_snoc.
    + eapply dispatch_no_start; try eassumption.
      * apply emitted_app. cbn. rewrite <- !app_assoc. reflexivity.
      * reflexivity.
  - eapply dispatch_no_constructor; try eassumption.
    + apply emitted_app. reflexivity.
    + reflexivity.
Qed.

(** C1: when [send_message] handles a message that is not an EOF, a request
    handed to the parent's [send_message] is the tagged request, and before
    it the response driver for the message's [response_address] and
    [request_id] has been constructed and its [start] has returned without
    raising; that driver is in [response_drivers].  So no tagged request is
    sent without its reply route running. *)
Theorem reply_route_started_before_send
    (msg : CommMessage) (kw : send_kwargs) (st : state)
    (pre post : list event) (m : CommMessage) (k : send_kwargs) :
  flag msg <> FLAG_EOF ->
  emitted st (send_message msg kw st).2 = pre ++ EvBaseSend m k :: post ->
  exists address request_id commtype drv drv',
    dict_get "response_address" (header msg) = Some address /\
    dict_get "request_id" (header msg) = Some request_id /\
    new_response_driver address request_id (route_kwargs st commtype)
    = Ok drv /\
    start drv = Ok drv' /\
    pre = [EvConstructed address request_id (route_kwargs st commtype) drv;
           EvStarted drv'] /\
    post = [] /\
    m = msg /\
    k = tagged msg kw drv' request_id /\
    drv' ∈ response_drivers (send_message msg kw st).2.
Proof.
  intros Hflag Hev.
  pose proof (send_message_dispatch msg kw st Hflag) as D.
  destruct (send_message msg kw st) as [r st']. cbn [snd] in *.
  inversion D; subst.
  - rewrite emitted_refl in Hev. exfalso. eapply app_cons_not_nil. exact Hev.
  - rewrite emitted_refl in Hev. exfalso. eapply app_cons_not_nil. exact Hev.
  - match goal with H : emitted _ _ = [_] |- _ => rewrite H in Hev end.
    destruct pre as [| ? pre]; [discriminate Hev |].
    injection Hev as _ Hev. exfalso. eapply app_cons_not_nil. exact Hev.
  - match goal with H : emitted _ _ = [_; _] |- _ => rewrite H in Hev end.
    destruct pre as [| ? pre]; [discriminate Hev |].
    injection Hev as _ Hev.
    destruct pre as [| ? pre]; [discriminate Hev |].
    injection Hev as _ Hev. exfalso. eapply app_cons_not_nil. exact Hev.
  - match goal with H : emitted _ _ = [_; _; _] |- _ => rewrite H in Hev end.
    destruct pre as [| e1 pre]; [discriminate Hev |].
    injection Hev as He1 Hev.
    destruct pre as [| e2 pre]; [discriminate Hev |].
    injection Hev as He2 Hev.
    destruct pre as [| e3 pre].
    + injection Hev as Hm Hk Hpost. subst.
      exists address, request_id, commtype, drv, drv'.
      repeat split; try assumption.
      match goal with H : response_drivers _ = _ |- _ => rewrite H end.
      apply elem_of_app. right. apply list_elem_of_singleton. reflexivity.
    + injection Hev as _ Hev. exfalso. eapply app_cons_not_nil. exact Hev.
Qed.

(** The tagged request carries the reply address, the request id and the
    name of the client. *)
Lemma tagged_header (msg : CommMessage) (kw : send_kwargs)
    (drv : RPCResponseDriver) (request_id : json) :
  exists hk,
    header_kwargs (tagged msg kw drv request_id) = Some hk /\
    dict_mem "response_address" hk = true /\
    dict_mem "request_id" hk = true /\
    dict_mem "model" hk = true.
Proof.
  eexists. split; [reflexivity |]. repeat split.
  - do 2 apply dict_mem_setdefault_keep. apply dict_mem_setdefault_same.
  - apply dict_mem_setdefault_keep. apply dict_mem_setdefault_same.
  - apply dict_mem_setdefault_same.
Qed.

(** C6 (as amended): when the constructor of the response driver raises,
    or [start] raises on the driver it returned, [send_message] does not
    raise but returns [False], and hands nothing to the parent's
    [send_message].  When the constructor raised, [response_drivers] is what
    it was; when [start] raised, the driver that was constructed has already
    been appended to [response_drivers] and stays there. *)
Theorem failed_route_fails_send
    (msg : CommMessage) (kw : send_kwargs) (st : state)
    (address request_id commtype : json) :
  flag msg <> FLAG_EOF ->
  dict_get "response_address" (header msg) = Some address ->
  dict_get "request_id" (header msg) = Some request_id ->
  dict_get "commtype" (header msg) = Some commtype ->
  (forall drv,
     new_response_driver address request_id (route_kwargs st commtype)
     = Ok drv ->
     is_ok (start drv) = false) ->
  (send_message msg kw st).1 = Ok false
  /\ List.filter is_base_send (emitted st (send_message msg kw st).2) = []
  /\ (is_ok (new_response_driver address request_id (route_kwargs st commtype))
      = false ->
      response_drivers (send_message msg kw st).2 = response_drivers st)
  /\ (forall drv,
        new_response_driver address request_id (route_kwargs st commtype)
        = Ok drv ->
        ocomm_is_closed st = false -> is_comm_open st = true ->
        block_response st = false ->
        response_drivers (send_message msg kw st).2
        = response_drivers st ++ [drv]).
Proof.
  intros Hflag Ha Hr Hc Hfail.
  pose proof (send_message_dispatch msg kw st Hflag) as D.
  destruct (send_message msg kw st) as [r st']. cbn [fst snd] in *.
  inversion D; subst.
  - rewrite emitted_refl.
    split; [reflexivity |]. split; [reflexivity |].
    split; [intros _; reflexivity |].
    intros drv0 _ H1 H2 H3.
    match goal with H : _ \/ _ |- _ => destruct H as [H | [H | H]] end;
      congruence.
  - exfalso.
    match goal with H : _ ∈ _ |- _ =>
      repeat (apply elem_of_cons in H as [-> | H]; [congruence |]);
      apply elem_of_nil in H; exact H
    end.
  - match goal with H : emitted _ _ = _ |- _ => rewrite H end.
    split; [reflexivity |]. split; [reflexivity |].
    split; [intros _; assumption |].
    intros drv0 Hnew. congruence.
  - match goal with H : emitted _ _ = _ |- _ => rewrite H end.
    rewrite Ha, Hr, Hc in *. simplify_eq.
    split; [reflexivity |]. split; [reflexivity |]. split.
    + intros Hno.
      match goal with H : new_response_driver _ _ _ = Ok _ |- _ =>
        rewrite H in Hno end.
      discriminate Hno.
    + intros drv0 Hnew _ _ _. congruence.
  - exfalso. rewrite Ha, Hr, Hc in *. simplify_eq.
    match goal with
    | Hn : new_response_driver _ _ _ = Ok ?d, Hs : start ?d = Ok _ |- _ =>
        specialize (Hfail d Hn); rewrite Hs in Hfail; discriminate Hfail
    end.
Qed.

End Dispatch.

(** *** Sets of model names *)

Lemma union_singleton_difference (n : string) (X : gset string) :
  n ∉ X -> ({[ n ]} ∪ X) ∖ {[ n ]} = X.
Proof. set_solver. Qed.

Lemma difference_absent (n : string) (X : gset string) :
  n ∉ X -> X ∖ {[ n ]} = X.
Proof. set_solver. Qed.

Lemma not_elem_of_difference_singleton (n : string) (X : gset string) :
  n ∉ X ∖ {[ n ]}.
Proof. set_solver. Qed.

Lemma difference_singleton_subset (n : string) (X : gset string) :
  n ∈ X -> X ∖ {[ n ]} ⊂ X.
Proof. set_solver. Qed.

Lemma list_to_set_middle_nonempty (pre rest : list string) (x : string) :
  (list_to_set (pre ++ x :: rest) : gset string) <> ∅.
Proof.
  intros He.
  assert (Hx : x ∈ (list_to_set (pre ++ x :: rest) : gset string)).
  { apply elem_of_list_to_set, elem_of_app. right. apply elem_of_cons.
    left. reflexivity. }
  rewrite He in Hx. exact (not_elem_of_empty x Hx).
Qed.

Lemma list_to_set_head (x : string) (l : list string) :
  x ∈ (list_to_set (x :: l) : gset string).
Proof. apply elem_of_list_to_set, elem_of_cons. left. reflexivity. Qed.

Lemma list_to_set_tail (x : string) (l : list string) :
  x ∉ l -> (list_to_set (x :: l) : gset string) ∖ {[ x ]} = list_to_set l.
Proof.
  intros Hx. rewrite list_to_set_cons. apply union_singleton_difference.
  rewrite elem_of_list_to_set. exact Hx.
Qed.

Section SignOff.
Context {C : Collaborators}.

Lemma eof_count_app (st st' : state) (evs : list event) :
  trace st' = trace st ++ evs ->
  eof_count st' = eof_count st + length (List.filter is_send_eof evs).
Proof.
  intros H. unfold eof_count. rewrite H, List.filter_app, length_app.
  reflexivity.
Qed.

(** What one call of [remove_model] does: the name leaves the registry of
    its direction, the sentinel goes out when an input client was known, an
    EOF goes out when the registry is empty afterwards, and the answer says
    whether it is. *)
Lemma remove_model_spec (d : direction) (nm : json) (st : state) :
  let r := remove_model d nm st in
  r.1 = bool_decide (without nm (models d st) = ∅)
  /\ models d r.2 = without nm (models d st)
  /\ (forall d', d' <> d -> models d' r.2 = models d' st)
  /\ response_drivers r.2 = response_drivers st
  /\ icomm_empty_obj_recv r.2 = icomm_empty_obj_recv st
  /\ trace r.2
     = trace st
       ++ (match d with
           | Input => if name_in nm (clients st) then [client_end nm] else []
           | Output => []
           end)
       ++ (if bool_decide (without nm (models d st) = ∅) then [EvSendEof]
           else []).
Proof.
  unfold remove_model, base_remove_model, clients.
  destruct d; cbn [models].
  - destruct (name_in nm (models_input st));
      cbn [base_send_message fst snd emit models_input set_models];
      fold (without nm (models_input st));
      generalize (without nm (models_input st)); intros reg;
      destruct (bool_decide (reg = ∅)); cbn;
      repeat match goal with |- _ /\ _ => split end;
      try reflexivity;
      try (intros [] Hd; [congruence | reflexivity]);
      rewrite <- ?app_assoc, ?app_nil_r; reflexivity.
  - fold (without nm (models_output st)).
    generalize (without nm (models_output st)); intros reg.
    destruct (bool_decide (reg = ∅)); cbn;
      repeat match goal with |- _ /\ _ => split end;
      try reflexivity;
      try (intros [] Hd; [reflexivity | congruence]);
      rewrite <- ?app_assoc, ?app_nil_r; reflexivity.
Qed.

Lemma size_zero_empty (X : gset string) :
  (size X =? 0)%nat = bool_decide (X = ∅).
Proof.
  destruct (decide (X = ∅)) as [-> | Hne].
  - rewrite size_empty, bool_decide_true by reflexivity. reflexivity.
  - rewrite bool_decide_false by exact Hne.
    apply Nat.eqb_neq. apply size_non_empty_iff.
    intros Heq. apply Hne. apply leibniz_equiv. exact Heq.
Qed.

(** One sign-off of a client that is in the Client Set. *)
Lemma on_eof_known (n : string) (st : state) :
  n ∈ clients st ->
  let r := on_eof (eof_from n) st in
  clients r.2 = clients st ∖ {[ n ]}
  /\ nclients r.2 < nclients st
  /\ eof_count r.2
     = eof_count st + (if bool_decide (clients st ∖ {[ n ]} = ∅) then 1 else 0)
  /\ (clients st ∖ {[ n ]} <> ∅ -> flag r.1 = FLAG_EMPTY)
  /\ (clients st ∖ {[ n ]} = ∅ -> r.1 = base_on_eof_result (eof_from n)).
Proof.
  intros Hin. unfold on_eof.
  change (default (JStr "") (dict_get "model" (header (eof_from n))))
    with (JStr n).
  destruct (remove_model_spec Input (JStr n) st)
    as (_ & Hreg & _ & _ & _ & Htr).
  set (st1 := (remove_model Input (JStr n) st).2) in *.
  unfold nclients, clients in *. cbn [without models] in *.
  assert (Hname : name_in (JStr n) (models_input st) = true)
    by (apply bool_decide_eq_true; exact Hin).
  rewrite Hname in Htr.
  rewrite size_zero_empty, Hreg.
  assert (Hlt : size (models_input st ∖ {[ n ]}) < size (models_input st))
    by (apply subset_size, difference_singleton_subset; exact Hin).
  destruct (bool_decide (models_input st ∖ {[ n ]} = ∅)) eqn:Hempty.
  - apply bool_decide_eq_true in Hempty.
    cbn [base_on_eof fst snd emit models_input]. rewrite Hreg.
    split; [reflexivity |]. split; [exact Hlt |]. split.
    + rewrite (eof_count_app st (emit (EvBaseOnEof (eof_from n)) st1)
                 [client_end (JStr n); EvSendEof; EvBaseOnEof (eof_from n)]).
      * reflexivity.
      * cbn [emit trace]. rewrite Htr, <- !app_assoc. reflexivity.
    + split; [intros Hne; contradiction | intros _; reflexivity].
  - apply bool_decide_eq_false in Hempty.
    cbn [fst snd]. rewrite Hreg.
    split; [reflexivity |]. split; [exact Hlt |]. split.
    + rewrite (eof_count_app st st1 [client_end (JStr n)]).
      * cbn. lia.
      * rewrite Htr, app_nil_r. reflexivity.
    + split; [intros _; reflexivity | intros He; contradiction].
Qed.

Lemma sign_off_cons (n : string) (order : list string) (st : state) :
  sign_off (n :: order) st = sign_off order (on_eof (eof_from n) st).2.
Proof. reflexivity. Qed.

(** While clients remain, the Client Set is what is left of the order and
    no EOF has gone downstream. *)
Lemma sign_off_prefix (pre rest : list string) (st : state) :
  NoDup (pre ++ rest) ->
  rest <> [] ->
  clients st = list_to_set (pre ++ rest) ->
  clients (sign_off pre st) = list_to_set rest
  /\ eof_count (sign_off pre st) = eof_count st.
Proof.
  revert st. induction pre as [| n pre IH]; intros st Hnd Hrest Hcl.
  - split; [exact Hcl | reflexivity].
  - rewrite sign_off_cons.
    cbn [app] in Hnd, Hcl. apply NoDup_cons in Hnd as [Hn Hnd].
    assert (Hin : n ∈ clients st) by (rewrite Hcl; apply list_to_set_head).
    destruct (on_eof_known n st Hin) as (Hcl1 & _ & Hcount & _ & _).
    assert (Hleft : clients st ∖ {[ n ]} = list_to_set (pre ++ rest))
      by (rewrite Hcl; apply list_to_set_tail; exact Hn).
    assert (Hne : clients st ∖ {[ n ]} <> ∅).
    { rewrite Hleft. destruct rest as [| x rest]; [congruence |].
      apply list_to_set_middle_nonempty. }
    rewrite bool_decide_false in Hcount by exact Hne.
    destruct (IH (on_eof (eof_from n) st).2 Hnd Hrest) as [H1 H2].
    + rewrite Hcl1. exact Hleft.
    + split; [exact H1 | rewrite H2; lia].
Qed.

Lemma sign_off_snoc (order : list string) (n : string) (st : state) :
  sign_off (order ++ [n]) st = (on_eof (eof_from n) (sign_off order st)).2.
Proof. unfold sign_off. rewrite foldl_app. reflexivity. Qed.

(** C2: let the clients of a request driver sign off in any order, each
    once.  Every sign-off takes its client out of the Client Set, which
    gets strictly smaller.  A sign-off that leaves a client behind sends no
    EOF downstream and hands the loop an empty message; the sign-off of the
    last client sends the one downstream EOF.  So the EOF goes out exactly
    once, and never while a client is left. *)
Theorem client_signoff_single_eof (order : list string) (st : state) :
  NoDup order ->
  clients st = list_to_set order ->
  (forall k n,
     order !! k = Some n ->
     let before := sign_off (take k order) st in
     let r := on_eof (eof_from n) before in
     n ∈ clients before
     /\ clients r.2 = clients before ∖ {[ n ]}
     /\ nclients r.2 < nclients before
     /\ (S k < length order ->
         clients r.2 <> ∅ /\ eof_count r.2 = eof_count st
         /\ flag r.1 = FLAG_EMPTY)
     /\ (S k = length order ->
         clients r.2 = ∅ /\ eof_count r.2 = S (eof_count st)
         /\ r.1 = base_on_eof_result (eof_from n)))
  /\ (order <> [] ->
      clients (sign_off order st) = ∅
      /\ eof_count (sign_off order st) = S (eof_count st)).
Proof.
  intros Hnd Hcl.
  assert (Hstep : forall k n,
     order !! k = Some n ->
     let before := sign_off (take k order) st in
     let r := on_eof (eof_from n) before in
     n ∈ clients before
     /\ clients r.2 = clients before ∖ {[ n ]}
     /\ nclients r.2 < nclients before
     /\ (S k < length order ->
         clients r.2 <> ∅ /\ eof_count r.2 = eof_count st
         /\ flag r.1 = FLAG_EMPTY)
     /\ (S k = length order ->
         clients r.2 = ∅ /\ eof_count r.2 = S (eof_count st)
         /\ r.1 = base_on_eof_result (eof_from n))).
  { intros k n Hk before r.
    pose proof (take_drop_middle order k n Hk) as Hsplit.
    assert (Hnd' : NoDup (take k order ++ n :: drop (S k) order))
      by (rewrite Hsplit; exact Hnd).
    destruct (sign_off_prefix (take k order) (n :: drop (S k) order) st)
      as [Hbefore Hcount]; [exact Hnd' | discriminate | |].
    { rewrite Hsplit. exact Hcl. }
    fold before in Hbefore, Hcount.
    apply NoDup_app in Hnd' as (_ & _ & Hrest).
    apply NoDup_cons in Hrest as [Hn _].
    assert (Hin : n ∈ clients before)
      by (rewrite Hbefore; apply list_to_set_head).
    destruct (on_eof_known n before Hin) as (Hcl1 & Hlt & Hc & Hempty & Hlast).
    fold r in Hcl1, Hlt, Hc, Hempty, Hlast.
    assert (Hleft : clients before ∖ {[ n ]} = list_to_set (drop (S k) order))
      by (rewrite Hbefore; apply list_to_set_tail; exact Hn).
    split; [exact Hin |]. split; [exact Hcl1 |]. split; [exact Hlt |]. split.
    - intros Hmore.
      assert (Hne : clients before ∖ {[ n ]} <> ∅).
      { rewrite Hleft.
        destruct (drop (S k) order) as [| x rest] eqn:Hd.
        - apply (f_equal length) in Hd. rewrite length_drop in Hd.
          simpl in Hd. lia.
        - apply (list_to_set_middle_nonempty [] rest x). }
      rewrite bool_decide_false in Hc by exact Hne.
      split; [rewrite Hcl1; exact Hne |].
      split; [rewrite Hc, Hcount; lia | exact (Hempty Hne)].
    - intros Hend.
      assert (He : clients before ∖ {[ n ]} = ∅).
      { rewrite Hleft, drop_ge by lia. reflexivity. }
      rewrite bool_decide_true in Hc by exact He.
      split; [rewrite Hcl1; exact He |].
      split; [rewrite Hc, Hcount; lia | exact (Hlast He)]. }
  split; [exact Hstep |].
  intros Hne.
  destruct (exists_last Hne) as (pre & n & Horder).
  assert (Hk : order !! length pre = Some n).
  { rewrite Horder. rewrite lookup_app_r by lia.
    rewrite Nat.sub_diag. reflexivity. }
  destruct (Hstep (length pre) n Hk) as (_ & _ & _ & _ & Hend).
  assert (Htake : take (length pre) order = pre)
    by (rewrite Horder; apply take_app_length).
  rewrite Htake in Hend.
  assert (Hlen : S (length pre) = length order)
    by (rewrite Horder, length_app; simpl; lia).
  destruct (Hend Hlen) as (H1 & H2 & _).
  rewrite Horder, sign_off_snoc. split; assumption.
Qed.

(** A name that is not in a registry: taking it out changes nothing. *)
Lemma without_absent (nm : json) (reg : gset string) :
  name_in nm reg = false -> without nm reg = reg.
Proof.
  destruct nm; try reflexivity. cbn [name_in without].
  intros H. apply bool_decide_eq_false in H.
  apply difference_absent. exact H.
Qed.

Lemma name_in_without (nm : json) (reg : gset string) :
  name_in nm (without nm reg) = false.
Proof.
  destruct nm; try reflexivity. cbn [name_in without].
  apply bool_decide_eq_false. apply not_elem_of_difference_singleton.
Qed.

Lemma set_models_same (d : direction) (st : state) :
  set_models d (models d st) st = st.
Proof. destruct d, st; reflexivity. Qed.

(** [remove_model] on a name that its registry does not hold. *)
Lemma remove_model_absent (d : direction) (nm : json) (st : state) :
  name_in nm (models d st) = false ->
  remove_model d nm st
  = (bool_decide (models d st = ∅),
     if bool_decide (models d st = ∅) then send_eof st else st).
Proof.
  intros Habs.
  pose proof (without_absent nm (models d st) Habs) as Hw.
  pose proof (set_models_same d st) as Hs.
  unfold remove_model, base_remove_model, clients, without in *.
  destruct d; cbn [models] in *.
  - rewrite Habs, Hw, Hs.
    destruct (bool_decide (models_input st = ∅)); reflexivity.
  - rewrite Hw, Hs.
    destruct (bool_decide (models_output st = ∅)); reflexivity.
Qed.

(** C9 (as amended): every call of [remove_model] answers whether the
    registry of its direction is empty afterwards.  A call with a name the
    registry does not hold, so also a second call with the same arguments,
    does not fail, leaves the registries and the response drivers as they
    are and does not send the client-end sentinel again; while the registry
    is not empty it changes nothing at all, and when the registry is empty
    it calls [send_eof] once more. *)
Theorem remove_model_repeated (d : direction) (nm : json) (st : state) :
  let first := remove_model d nm st in
  first.1 = bool_decide (models d first.2 = ∅)
  /\ remove_model d nm first.2
     = (first.1, if first.1 then send_eof first.2 else first.2)
  /\ (forall st0,
        name_in nm (models d st0) = false ->
        remove_model d nm st0
        = (bool_decide (models d st0 = ∅),
           if bool_decide (models d st0 = ∅) then send_eof st0 else st0)).
Proof.
  intros first.
  destruct (remove_model_spec d nm st) as (Hout & Hreg & _).
  fold first in Hout, Hreg.
  assert (Hfirst : first.1 = bool_decide (models d first.2 = ∅))
    by (rewrite Hreg; exact Hout).
  split; [exact Hfirst |]. split.
  - rewrite remove_model_absent.
    + rewrite <- Hfirst. reflexivity.
    + rewrite Hreg. apply name_in_without.
  - intros st0. apply remove_model_absent.
Qed.

End SignOff.

(** Three clients signing off in the order B, A, C. *)
Lemma client_signoff_single_eof_witness :
  let order := ["B"; "A"; "C"] in
  let st := wired (list_to_set order) in
  (forall k n,
     order !! k = Some n ->
     let before := @sign_off sound (take k order) st in
     let r := @on_eof sound (eof_from n) before in
     n ∈ clients before
     /\ clients r.2 = clients before ∖ {[ n ]}
     /\ nclients r.2 < nclients before
     /\ (S k < length order ->
         clients r.2 <> ∅ /\ eof_count r.2 = eof_count st
         /\ flag r.1 = FLAG_EMPTY)
     /\ (S k = length order ->
         clients r.2 = ∅ /\ eof_count r.2 = S (eof_count st)
         /\ r.1 = @base_on_eof_result sound (eof_from n)))
  /\ (order <> [] ->
      clients (@sign_off sound order st) = ∅
      /\ eof_count (@sign_off sound order st) = S (eof_count st)).
Proof.
  apply (@client_signoff_single_eof sound ["B"; "A"; "C"]
           (wired (list_to_set ["B"; "A"; "C"]))).
  - apply (bool_decide_unpack (NoDup ["B"; "A"; "C"])). vm_compute. exact I.
  - reflexivity.
Defined.

(** A name that the input registry does not hold. *)
Lemma remove_model_repeated_witness :
  @remove_model sound Input (JStr "Z") (wired {[ "A" ]})
  = (bool_decide (models Input (wired {[ "A" ]}) = ∅),
     if bool_decide (models Input (wired {[ "A" ]}) = ∅)
     then send_eof (wired {[ "A" ]}) else wired {[ "A" ]}).
Proof.
  apply (proj2 (proj2 (@remove_model_repeated sound Input (JStr "Z")
                         (wired {[ "A" ]})))).
  vm_compute. reflexivity.
Defined.

(** C9 fails as stated: after the only client has been removed, a second
    call with the same arguments sends no sentinel but calls [send_eof]
    again, so the trace holds a second downstream EOF. *)
Lemma repeated_remove_model_counterexample :
  let st := wired {[ "A" ]} in
  let first := @remove_model sound Input (JStr "A") st in
  let second := @remove_model sound Input (JStr "A") first.2 in
  first.1 = true
  /\ emitted st first.2 = [client_end (JStr "A"); EvSendEof]
  /\ second.1 = true
  /\ emitted first.2 second.2 = [EvSendEof]
  /\ eof_count first.2 = 1
  /\ eof_count second.2 = 2.
Proof. vm_compute. repeat split; reflexivity. Qed.

(** A request from client [A] through collaborators that never fail: the
    parent's send is the third event, after the construction and the start
    of the response driver. *)
Lemma reply_route_started_before_send_witness :
  exists address request_id commtype drv drv',
    dict_get "response_address" (header ping) = Some address /\
    dict_get "request_id" (header ping) = Some request_id /\
    @new_response_driver sound address request_id
      (route_kwargs (wired {[ "A" ]}) commtype) = Ok drv /\
    @start sound drv = Ok drv' /\
    [EvConstructed (JStr "addr1") (JStr "r1")
       (route_kwargs (wired {[ "A" ]}) (JStr "buffer"))
       (fresh_driver (JStr "addr1"));
     EvStarted (started (fresh_driver (JStr "addr1")))]
    = [EvConstructed address request_id
         (route_kwargs (wired {[ "A" ]}) commtype) drv;
       EvStarted drv'] /\
    @nil event = [] /\
    ping = ping /\
    tagged ping no_kwargs (started (fresh_driver (JStr "addr1"))) (JStr "r1")
    = tagged ping no_kwargs drv' request_id /\
    drv' ∈ response_drivers
             (@send_message sound ping no_kwargs (wired {[ "A" ]})).2.
Proof.
  apply (@reply_route_started_before_send sound ping no_kwargs
           (wired {[ "A" ]})
           [EvConstructed (JStr "addr1") (JStr "r1")
              (route_kwargs (wired {[ "A" ]}) (JStr "buffer"))
              (fresh_driver (JStr "addr1"));
            EvStarted (started (fresh_driver (JStr "addr1")))]
           [] ping
           (tagged ping no_kwargs (started (fresh_driver (JStr "addr1")))
              (JStr "r1"))).
  - discriminate.
  - vm_compute. reflexivity.
Defined.

(** A request whose response driver cannot be constructed. *)
Lemma failed_route_fails_send_witness :
  let st := wired {[ "A" ]} in
  let st' := (@send_message no_constructor ping no_kwargs st).2 in
  (@send_message no_constructor ping no_kwargs st).1 = Ok false
  /\ List.filter is_base_send (emitted st st') = []
  /\ (is_ok (@new_response_driver no_constructor (JStr "addr1") (JStr "r1")
               (route_kwargs st (JStr "buffer"))) = false ->
      response_drivers st' = response_drivers st)
  /\ (forall drv,
        @new_response_driver no_constructor (JStr "addr1") (JStr "r1")
          (route_kwargs st (JStr "buffer")) = Ok drv ->
        ocomm_is_closed st = false -> is_comm_open st = true ->
        block_response st = false ->
        response_drivers st' = response_drivers st ++ [drv]).
Proof.
  apply (@failed_route_fails_send no_constructor ping no_kwargs
           (wired {[ "A" ]}) (JStr "addr1") (JStr "r1") (JStr "buffer")).
  - discriminate.
  - reflexivity.
  - reflexivity.
  - reflexivity.
  - intros drv H. discriminate H.
Defined.

(** C6 fails as stated: when [start] raises, [send_message] returns
    [False] and sends nothing, but the response driver it constructed is in
    [response_drivers], not running, and a prune pass does not remove it. *)
Lemma orphaned_route_counterexample :
  let st := wired {[ "A" ]} in
  let r := @send_message no_start ping no_kwargs st in
  @start no_start (fresh_driver (JStr "addr1"))
  = Raise (OtherError "cannot start thread")
  /\ r.1 = Ok false
  /\ List.filter is_base_send (emitted st r.2) = []
  /\ response_drivers st = []
  /\ response_drivers r.2 = [fresh_driver (JStr "addr1")]
  /\ response_drivers (prune_response_drivers r.2)
     = [fresh_driver (JStr "addr1")].
Proof. vm_compute. repeat split; reflexivity. Qed.

End DriverProperties.

(** * Further properties of the typed message codec *)

Module TypedefProperties.
Import Py Json CisBaseType Typedef Examples.
Local Open Scope list_scope.

(** *** Dictionaries, filtered by key *)

Lemma dict_get_filter (keep : string -> bool) (k : string) (d : pydict) :
  dict_get k (List.filter (fun kv => keep kv.1) d)
  = if keep k then dict_get k d else None.
Proof.
  induction d as [| [k' v] d IH]; cbn [List.filter dict_get fst].
  - destruct (keep k); reflexivity.
  - destruct (keep k') eqn:Hk'; cbn [dict_get].
    + destruct (String.eqb_spec k k') as [-> | Hne].
      * rewrite Hk'. reflexivity.
      * exact IH.
    + destruct (String.eqb_spec k k') as [-> | Hne].
      * rewrite Hk' in *. exact IH.
      * exact IH.
Qed.

Lemma dict_del_skip (k : string) (v : json) (pre rest : pydict) :
  (forall kv, In kv pre -> kv.1 <> k) ->
  dict_del k (pre ++ (k, v) :: rest) = pre ++ rest.
Proof.
  induction pre as [| [k' v'] pre IH]; intros Hpre; cbn [app dict_del].
  - rewrite String.eqb_refl. reflexivity.
  - assert (Hne : k' <> k) by (apply (Hpre (k', v')); left; reflexivity).
    destruct (String.eqb_spec k k') as [-> | _]; [congruence |].
    rewrite IH; [reflexivity |].
    intros kv Hkv. apply Hpre. right. exact Hkv.
Qed.

Lemma dict_get_skip (k : string) (v : json) (pre rest : pydict) :
  (forall kv, In kv pre -> kv.1 <> k) ->
  dict_get k (pre ++ (k, v) :: rest) = Some v.
Proof.
  induction pre as [| [k' v'] pre IH]; intros Hpre; cbn [app dict_get].
  - rewrite String.eqb_refl. reflexivity.
  - assert (Hne : k' <> k) by (apply (Hpre (k', v')); left; reflexivity).
    destruct (String.eqb_spec k k') as [-> | _]; [congruence |].
    apply IH. intros kv Hkv. apply Hpre. right. exact Hkv.
Qed.

Lemma dict_mem_set (k k' : string) (v : json) (d : pydict) :
  dict_mem k (dict_set k' v d) = String.eqb k k' || dict_mem k d.
Proof.
  unfold dict_mem.
  destruct (String.eqb_spec k k') as [-> | Hne]; cbn [orb].
  - rewrite DriverProperties.dict_get_set_eq. reflexivity.
  - rewrite DriverProperties.dict_get_set_ne by exact Hne. reflexivity.
Qed.

Lemma py_in_strings (k : string) (l : list string) :
  py_in (JStr k) (JList (map JStr l)) = Ok (existsb (String.eqb k) l).
Proof.
  unfold py_in. f_equal.
  induction l as [| x l IH]; [reflexivity |].
  cbn [map existsb]. rewrite IH. reflexivity.
Qed.

Section Generic.
Context {Obj : Type} {T : CisType Obj} {E : Externals}.

Lemma schema_required :
  json_item "required" definition_schema
  = Ok (JList (map JStr (definition_properties ++ ["typename"]))).
Proof. reflexivity. Qed.

Lemma schema_properties :
  exists props,
    json_item "properties" definition_schema = Ok (JObject props)
    /\ forall k, dict_mem k props = is_property k.
Proof.
  eexists. split; [reflexivity |].
  intros k. apply dict_mem_set.
Qed.

(** The deleting loop keeps the entries with a required key. *)
Lemma drop_unrequired_filter (out pre : pydict) :
  (forall kv, In kv pre -> required kv.1 = true) ->
  drop_unrequired (JList (map JStr (definition_properties ++ ["typename"])))
    (dict_keys out) (pre ++ out)
  = Ok (pre ++ List.filter (fun kv => required kv.1) out).
Proof.
  revert pre. induction out as [| [k v] out IH]; intros pre Hpre.
  - reflexivity.
  - cbn [dict_keys map fst drop_unrequired List.filter].
    rewrite py_in_strings. fold (required k). fold (dict_keys out).
    destruct (required k) eqn:Hk.
    + replace (pre ++ (k, v) :: out) with ((pre ++ [(k, v)]) ++ out)
        by (rewrite <- app_assoc; reflexivity).
      rewrite IH.
      * rewrite <- app_assoc. reflexivity.
      * intros kv Hkv. apply in_app_or in Hkv as [Hkv | [<- | []]];
          [apply Hpre; exact Hkv | exact Hk].
    + rewrite dict_del_skip.
      * apply IH. exact Hpre.
      * intros kv Hkv Heq. rewrite <- Heq, (Hpre kv Hkv) in Hk.
        discriminate.
Qed.

(** [extract_typedef] as a function of the metadata. *)
Lemma extract_typedef_filter (metadata : pydict) :
  extract_typedef metadata
  = if validate_definition
         (JObject (List.filter (fun kv => required kv.1) metadata))
    then Ok (List.filter (fun kv => required kv.1) metadata)
    else Raise ValidationError.
Proof.
  unfold extract_typedef. rewrite schema_required.
  pose proof (drop_unrequired_filter metadata []) as H.
  cbn [app] in H. rewrite H; [reflexivity |].
  intros kv [].
Qed.

Lemma filter_required_twice (d : pydict) :
  List.filter (fun kv => required kv.1)
    (List.filter (fun kv => required kv.1) d)
  = List.filter (fun kv => required kv.1) d.
Proof.
  induction d as [| kv d IH]; cbn [List.filter]; [reflexivity |].
  destruct (required kv.1) eqn:Hk; cbn [List.filter]; [| exact IH].
  rewrite Hk, IH. reflexivity.
Qed.

(** X1: what [extract_typedef] returns holds, of the metadata, exactly
    the entries whose key the definition schema requires (the
    [definition_properties] and [typename]), with their values; it passes
    [validate_definition]; and extracting from it again returns it
    unchanged. *)
Theorem extract_typedef_keeps_required (metadata out : pydict) :
  extract_typedef metadata = Ok out ->
  (forall k,
     dict_get k out = if required k then dict_get k metadata else None)
  /\ validate_definition (JObject out) = true
  /\ extract_typedef out = Ok out.
Proof.
  rewrite extract_typedef_filter.
  destruct (validate_definition _) eqn:Hv; [| discriminate].
  intros [= <-].
  split; [intros k; apply dict_get_filter |].
  split; [exact Hv |].
  rewrite extract_typedef_filter, filter_required_twice, Hv. reflexivity.
Qed.

(** The loop of [update_typedef] sets the keywords that are properties
    and leaves the others in [kwargs]. *)
Lemma absorb_spec (P : pydict) (f : string -> bool) :
  (forall k, dict_mem k P = f k) ->
  forall (kwargs pre typedef : pydict),
    (forall kv, In kv pre -> f kv.1 = false) ->
    absorb (JObject P) (dict_keys kwargs) typedef (pre ++ kwargs)
    = Ok (fold_left
            (fun td kv => if f kv.1 then dict_set kv.1 kv.2 td else td)
            kwargs typedef,
          pre ++ List.filter (fun kv => negb (f kv.1)) kwargs).
Proof.
  intros HP. induction kwargs as [| [k v] kwargs IH]; intros pre td Hpre.
  - reflexivity.
  - cbn [dict_keys map fst absorb py_in fold_left List.filter snd].
    fold (dict_keys kwargs). rewrite (HP k).
    destruct (f k) eqn:Hk; cbn [negb].
    + assert (Hskip : forall kv, In kv pre -> kv.1 <> k).
      { intros kv Hkv Heq. rewrite <- Heq, (Hpre kv Hkv) in Hk.
        discriminate. }
      rewrite dict_get_skip, dict_del_skip by exact Hskip.
      apply IH. exact Hpre.
    + replace (pre ++ (k, v) :: kwargs) with ((pre ++ [(k, v)]) ++ kwargs)
        by (rewrite <- app_assoc; reflexivity).
      rewrite IH.
      * rewrite <- app_assoc. reflexivity.
      * intros kv Hkv. apply in_app_or in Hkv as [Hkv | [<- | []]];
          [apply Hpre; exact Hkv | exact Hk].
Qed.

Lemma dict_get_absent (k : string) (d : pydict) :
  k ∉ dict_keys d -> dict_get k d = None.
Proof.
  induction d as [| [k' v] d IH]; intros Hk; cbn [dict_get];
    [reflexivity |].
  cbn [dict_keys map fst] in Hk. fold (dict_keys d) in Hk.
  apply not_elem_of_cons in Hk as [Hne Hk].
  destruct (String.eqb_spec k k') as [-> | _]; [congruence | apply IH, Hk].
Qed.

Lemma dict_get_none_absent (k : string) (d : pydict) :
  dict_get k d = None -> k ∉ dict_keys d.
Proof.
  induction d as [| [k' v] d IH]; cbn [dict_get dict_keys map fst];
    intros H Hin.
  - apply elem_of_nil in Hin. exact Hin.
  - destruct (String.eqb_spec k k') as [-> | Hne]; [discriminate |].
    apply elem_of_cons in Hin as [-> | Hin]; [congruence |].
    exact (IH H Hin).
Qed.

Lemma dict_keys_set (k : string) (v : json) (d : pydict) :
  dict_get k d = None -> dict_keys (dict_set k v d) = dict_keys d ++ [k].
Proof.
  induction d as [| [k' v'] d IH]; cbn [dict_get dict_set]; intros H.
  - reflexivity.
  - destruct (String.eqb k k'); [discriminate |].
    cbn [dict_keys map fst app]. f_equal. apply IH. exact H.
Qed.

(** Where a key is looked up once the keywords have been set. *)
Lemma dict_get_absorbed (f : string -> bool) (k : string)
    (kwargs typedef : pydict) :
  NoDup (dict_keys kwargs) ->
  dict_get k
    (fold_left (fun td kv => if f kv.1 then dict_set kv.1 kv.2 td else td)
       kwargs typedef)
  = if f k then
      match dict_get k kwargs with
      | Some v => Some v
      | None => dict_get k typedef
      end
    else dict_get k typedef.
Proof.
  revert typedef.
  induction kwargs as [| [k' v] kwargs IH]; intros td Hnd.
  - cbn. destruct (f k); reflexivity.
  - cbn [dict_keys map fst] in Hnd. fold (dict_keys kwargs) in Hnd.
    apply NoDup_cons in Hnd as [Hk' Hnd].
    cbn [fold_left fst snd dict_get]. rewrite (IH _ Hnd).
    destruct (String.eqb_spec k k') as [-> | Hne].
    + rewrite (dict_get_absent k' kwargs Hk').
      destruct (f k'); [| reflexivity].
      apply DriverProperties.dict_get_set_eq.
    + destruct (f k'); [| reflexivity].
      rewrite DriverProperties.dict_get_set_ne by exact Hne. reflexivity.
Qed.

(** [update_typedef] as a function of the instance and the keywords. *)
Lemma update_typedef_cases (self : instance) (kwargs : pydict) :
  update_typedef self kwargs
  = if py_truthy (default JNull (dict_get "typename" kwargs))
       && py_truthy (default JNull (dict_get "typename" (self_typedef self)))
       && negb (json_eqb (default JNull (dict_get "typename" kwargs))
                  (default JNull (dict_get "typename" (self_typedef self))))
    then
      (Raise (CisTypeError "Cannot update typedef for type '%s' to be '%s'."),
       self)
    else
      let typedef :=
        fold_left
          (fun td kv => if is_property kv.1 then dict_set kv.1 kv.2 td else td)
          kwargs (self_typedef self) in
      if validate_definition (JObject typedef) then
        (Ok (List.filter (fun kv => negb (is_property kv.1)) kwargs),
         {| self_typedef := typedef |})
      else (Raise ValidationError, {| self_typedef := typedef |}).
Proof.
  unfold update_typedef.
  destruct (_ && _ && _); [reflexivity |].
  destruct schema_properties as (props & Hprops & Hmem).
  rewrite Hprops.
  pose proof (absorb_spec props is_property Hmem kwargs []
                (self_typedef self)) as H.
  cbn [app] in H. rewrite H; [reflexivity |].
  intros kv [].
Qed.

(** X2: a successful [update_typedef] sets every keyword that is a
    property of the definition schema ([typename] or one of [properties])
    in the typedef of the instance, leaves the other typedef entries as
    they were, and returns the keywords that are no property, untouched;
    the new typedef passes [validate_definition]. *)
Theorem update_typedef_absorbs_properties
    (self self' : instance) (kwargs leftover : pydict) :
  NoDup (dict_keys kwargs) ->
  update_typedef self kwargs = (Ok leftover, self') ->
  (forall k,
     dict_get k (self_typedef self')
     = if is_property k then
         match dict_get k kwargs with
         | Some v => Some v
         | None => dict_get k (self_typedef self)
         end
       else dict_get k (self_typedef self))
  /\ (forall k,
        dict_get k leftover = if is_property k then None else dict_get k kwargs)
  /\ validate_definition (JObject (self_typedef self')) = true.
Proof.
  intros Hnd. rewrite update_typedef_cases.
  destruct (_ && _ && _); [discriminate |]. cbv zeta.
  destruct (validate_definition _) eqn:Hv; [| discriminate].
  intros [= <- <-]. cbn [self_typedef].
  split; [intros k; apply dict_get_absorbed; exact Hnd |].
  split; [| exact Hv].
  intros k.
  rewrite (dict_get_filter (fun k => negb (is_property k)) k kwargs).
  destruct (is_property k); reflexivity.
Qed.

(** X3: [update_typedef] is not atomic.  It raises [CisTypeError] before
    it touches the instance, but when it raises the [ValidationError] of
    the final schema check, the typedef of the instance has already taken
    the keywords that are properties, and is the definition that was
    rejected. *)
Theorem update_typedef_failure_state
    (self self' : instance) (kwargs : pydict) (e : exn) :
  NoDup (dict_keys kwargs) ->
  update_typedef self kwargs = (Raise e, self') ->
  (e = CisTypeError "Cannot update typedef for type '%s' to be '%s'."
   /\ self' = self)
  \/ (e = ValidationError
      /\ validate_definition (JObject (self_typedef self')) = false
      /\ forall k,
           dict_get k (self_typedef self')
           = if is_property k then
               match dict_get k kwargs with
               | Some v => Some v
               | None => dict_get k (self_typedef self)
               end
             else dict_get k (self_typedef self)).
Proof.
  intros Hnd. rewrite update_typedef_cases.
  destruct (_ && _ && _).
  - intros [= <- <-]. left. split; reflexivity.
  - cbv zeta. destruct (validate_definition _) eqn:Hv; [discriminate |].
    intros [= <- <-]. right. cbn [self_typedef].
    split; [reflexivity |]. split; [exact Hv |].
    intros k. apply dict_get_absorbed. exact Hnd.
Qed.

(** X4: the type name of an instance cannot be changed.  When the
    instance has a non-empty [typename] and the keywords name another
    non-empty one, [update_typedef] raises [CisTypeError] and leaves the
    instance alone; and whatever the call with a non-empty [typename]
    keyword does, the instance has the type name it had. *)
Theorem update_typedef_keeps_typename
    (self : instance) (kwargs : pydict) (t0 t1 : string) :
  NoDup (dict_keys kwargs) ->
  dict_get "typename" (self_typedef self) = Some (JStr t0) ->
  dict_get "typename" kwargs = Some (JStr t1) ->
  t0 <> EmptyString -> t1 <> EmptyString ->
  (t1 <> t0 ->
   update_typedef self kwargs
   = (Raise (CisTypeError "Cannot update typedef for type '%s' to be '%s'."),
      self))
  /\ dict_get "typename" (self_typedef (update_typedef self kwargs).2)
     = Some (JStr t0).
Proof.
  intros Hnd H0 H1 Ht0 Ht1. rewrite update_typedef_cases, H0, H1.
  change (default JNull (Some (JStr t1))) with (JStr t1).
  change (default JNull (Some (JStr t0))) with (JStr t0).
  cbn [py_truthy json_eqb].
  apply String.eqb_neq in Ht0, Ht1. rewrite Ht0, Ht1. cbn [negb andb].
  destruct (String.eqb_spec t1 t0) as [-> | Hne]; cbn [negb].
  - split; [congruence |]. cbv zeta.
    assert (Hget :
      dict_get "typename"
        (fold_left
           (fun td kv => if is_property kv.1 then dict_set kv.1 kv.2 td else td)
           kwargs (self_typedef self)) = Some (JStr t0)).
    { rewrite dict_get_absorbed by exact Hnd.
      unfold is_property. rewrite String.eqb_refl, H1. reflexivity. }
    destruct (validate_definition _); exact Hget.
  - split; [reflexivity | exact H0].
Qed.

(** X5: an instance that [__init__] returns always has a [typename]: the
    one given, or else the name of the class.  Its typedef holds the
    keywords that are properties of the definition schema and nothing
    else. *)
Theorem init_sets_typename (typedef : pydict) (self : instance) :
  NoDup (dict_keys typedef) ->
  init typedef = Ok self ->
  dict_get "typename" (self_typedef self)
  = Some (default (JStr name) (dict_get "typename" typedef))
  /\ (forall k,
        k <> "typename" ->
        dict_get k (self_typedef self)
        = if is_property k then dict_get k typedef else None)
  /\ validate_definition (JObject (self_typedef self)) = true.
Proof.
  intros Hnd. unfold init.
  set (td := dict_setdefault "typename" (JStr name) typedef).
  assert (Hnd' : NoDup (dict_keys td)).
  { unfold td, dict_setdefault.
    destruct (dict_get "typename" typedef) eqn:Hg; [exact Hnd |].
    rewrite dict_keys_set by exact Hg.
    apply NoDup_app. split; [exact Hnd |]. split; [| apply NoDup_singleton].
    intros x Hx Hin. apply list_elem_of_singleton in Hin. subst x.
    exact (dict_get_none_absent _ _ Hg Hx). }
  assert (Htd : forall k,
            dict_get k td
            = if String.eqb k "typename"
              then Some (default (JStr name) (dict_get "typename" typedef))
              else dict_get k typedef).
  { intros k. unfold td, dict_setdefault.
    destruct (String.eqb_spec k "typename") as [-> | Hne].
    - destruct (dict_get "typename" typedef) eqn:Hg; [exact Hg |].
      apply DriverProperties.dict_get_set_eq.
    - destruct (dict_get "typename" typedef);
        [reflexivity | apply DriverProperties.dict_get_set_ne; exact Hne]. }
  rewrite update_typedef_cases. cbn [self_typedef dict_get].
  change (default JNull None) with JNull. cbn [py_truthy].
  rewrite andb_false_r. cbn [andb]. cbv zeta.
  destruct (validate_definition _) eqn:Hv; [| intros H; discriminate H].
  intros [= <-]. cbn [self_typedef].
  assert (Hget : forall k,
            dict_get k
              (fold_left
                 (fun td kv =>
                    if is_property kv.1 then dict_set kv.1 kv.2 td else td)
                 td [])
            = if is_property k then
                match dict_get k td with
                | Some v => Some v
                | None => None
                end
              else None).
  { intros k. rewrite dict_get_absorbed by exact Hnd'. reflexivity. }
  split; [| split; [| exact Hv]].
  - rewrite Hget. unfold is_property. rewrite String.eqb_refl. cbn [orb].
    rewrite Htd, String.eqb_refl. reflexivity.
  - intros k Hne. rewrite Hget, Htd.
    apply String.eqb_neq in Hne. rewrite Hne.
    destruct (is_property k); [| reflexivity].
    destruct (dict_get k typedef); reflexivity.
Qed.

End Generic.

End TypedefProperties.

Module EnvelopeProperties.
Import Py Json CisBaseType Typedef Examples.
Local Open Scope list_scope.


Section Generic.
Context {Obj : Type} {T : CisType Obj} {E : Externals}.

(** The loop of [check_encoded] answers [True] only when every entry of
    the typedef is compatible with what the metadata has under its key. *)
Lemma check_items_true (metadata : json) (items : pydict) :
  check_items metadata items = Ok true ->
  forall k v,
    In (k, v) items ->
    exists x, py_get k metadata = Ok x /\ check_meta_compat k x v = true.
Proof.
  induction items as [| [k0 v0] items IH]; intros H k v Hin; [destruct Hin |].
  cbn [check_items] in H.
  destruct (py_get k0 metadata) as [x |] eqn:Hget; [| discriminate].
  destruct (check_meta_compat k0 x v0) eqn:Hc; cbn [negb] in H;
    [| discriminate].
  destruct Hin as [[= <- <-] | Hin].
  - exists x. split; [exact Hget | exact Hc].
  - apply IH; assumption.
Qed.


(** X6: a typedef can only restrict.  Metadata that [check_encoded]
    accepts against a typedef is accepted without one, the typedef itself
    passes [validate_definition], and for every entry of the typedef the
    metadata is a mapping whose value under that key ([None] when the key
    is missing) is compatible by [check_meta_compat]. *)
Theorem check_encoded_typedef_restricts (metadata : json) (typedef : pydict) :
  check_encoded metadata (Some typedef) = Ok true ->
  check_encoded metadata None = Ok true
  /\ validate_definition (JObject typedef) = true
  /\ forall k v,
       In (k, v) typedef ->
       exists x, py_get k metadata = Ok x /\ check_meta_compat k x v = true.
Proof.
  unfold check_encoded.
  destruct (validate_metadata metadata); cbn [negb]; [| discriminate].
  destruct (validate_definition (JObject typedef)); cbn [negb];
    [| discriminate].
  intros H. split; [reflexivity |]. split; [reflexivity |].
  apply check_items_true. exact H.
Qed.


(** The metadata that [encode] returns names the class. *)
Lemma encode_typename
    (obj : Obj) (typedef : option pydict) (metadata : pydict) (data : bytes) :
  (encode obj typedef).2 = Ok (metadata, data) ->
  dict_get "typename" metadata = Some (JStr name).
Proof.
  unfold encode.
  rewrite (CodecProperties.check_decoded_surj obj typedef).
  destruct ((check_decoded obj typedef).2) as [[|] | e]; cbn;
    try discriminate.
  destruct (transform_type obj typedef) as [obj_t | e]; cbn;
    try discriminate.
  destruct (encode_type obj_t) as [md | e]; cbn; try discriminate.
  destruct (encode_data obj_t (dict_set "typename" (JStr name) md))
    as [[b |] | e]; cbn;
    destruct (check_encoded (JObject (dict_set "typename" (JStr name) md))
                typedef) as [[|] | e']; cbn; try discriminate.
  intros [= <- <-]. apply DriverProperties.dict_get_set_eq.
Qed.

(** X8: what [encode] returns has been through every check.  The object
    passed [check_decoded]; the payload is what [encode_data] made of the
    transformed object; the metadata is the [encode_type] of the transformed
    object with [typename] set to the name of the class, and it passed
    [check_encoded] against the typedef. *)
Theorem encode_result_checked
    (obj : Obj) (typedef : option pydict) (metadata : pydict) (data : bytes) :
  (encode obj typedef).2 = Ok (metadata, data) ->
  (check_decoded obj typedef).2 = Ok true
  /\ dict_get "typename" metadata = Some (JStr name)
  /\ check_encoded (JObject metadata) typedef = Ok true
  /\ exists obj_t md,
       transform_type obj typedef = Ok obj_t
       /\ encode_type obj_t = Ok md
       /\ metadata = dict_set "typename" (JStr name) md
       /\ encode_data obj_t metadata = Ok (Bytes data).
Proof.
  unfold encode.
  rewrite (CodecProperties.check_decoded_surj obj typedef).
  destruct ((check_decoded obj typedef).2) as [[|] | e] eqn:Hcd; cbn;
    try discriminate.
  destruct (transform_type obj typedef) as [obj_t | e] eqn:Htr; cbn;
    try discriminate.
  destruct (encode_type obj_t) as [md | e] eqn:Hty; cbn; try discriminate.
  destruct (encode_data obj_t (dict_set "typename" (JStr name) md))
    as [[b |] | e] eqn:Hed; cbn;
    destruct (check_encoded (JObject (dict_set "typename" (JStr name) md))
                typedef) as [[|] | e'] eqn:Hce; cbn; try discriminate.
  intros [= <- <-].
  split; [reflexivity |].
  split; [apply DriverProperties.dict_get_set_eq |].
  split; [exact Hce |].
  exists obj_t, md. repeat split; assumption.
Qed.

(** X9: [decode] validates before it transforms.  An object it returns is
    the [transform_type] of the object that [decode_data] made of the
    payload, the metadata passed [check_encoded] against the typedef, and
    the decoded object passed [check_decoded] before it was transformed. *)
Theorem decode_result_checked
    (metadata : json) (data : bytes) (typedef : option pydict) (obj : Obj) :
  (decode metadata data typedef).2 = Ok obj ->
  check_encoded metadata typedef = Ok true
  /\ exists out,
       decode_data data metadata = Ok out
       /\ (check_decoded out typedef).2 = Ok true
       /\ transform_type out typedef = Ok obj.
Proof.
  unfold decode. cbn.
  destruct (check_encoded metadata typedef) as [[|] | e] eqn:Hce; cbn;
    try discriminate.
  destruct (decode_data data metadata) as [out | e] eqn:Hdd; cbn;
    try discriminate.
  rewrite (CodecProperties.check_decoded_surj out typedef).
  destruct ((check_decoded out typedef).2) as [[|] | e] eqn:Hcd; cbn;
    try discriminate.
  destruct (transform_type out typedef) as [o | e] eqn:Htr; cbn;
    try discriminate.
  intros [= <-]. split; [reflexivity |].
  exists out. repeat split; assumption.
Qed.

(** What [serialize] returns, from what [encode] returns. *)
Lemma serialize_ok_inv (self : instance) (obj : Obj) (kwargs : pydict)
    (msg : bytes) :
  (serialize self obj kwargs).2 = Ok msg ->
  exists metadata data,
    (encode obj (Some (self_typedef self))).2 = Ok (metadata, data)
    /\ msg
       = unicode2bytes (dumps (JObject (dict_update metadata kwargs)))
         ++ sep ++ data.
Proof.
  unfold serialize, bind.
  destruct (encode obj (Some (self_typedef self))) as [l [[md data] | e]];
    cbn; [| discriminate].
  intros [= <-]. exists md, data. split; reflexivity.
Qed.

End Generic.

(** The separator occurs in every byte string that has it in the
    middle. *)
Lemma contains_middle (p h d : bytes) : contains p (h ++ p ++ d) = true.
Proof.
  unfold contains.
  induction h as [| b h IH]; cbn [app].
  - destruct (p ++ d) eqn:Hpd; cbn [find];
      rewrite <- ?Hpd, CodecProperties.startswith_app_self; reflexivity.
  - cbn [find]. destruct (startswith p (b :: h ++ p ++ d)); [reflexivity |].
    destruct (find p (h ++ p ++ d)); [reflexivity | discriminate IH].
Qed.

Section Envelope.
Context {Obj : Type} {T : CisType Obj} {E : Externals}.

(** X10: a message that [serialize] returns is never empty and always
    contains the separator, so [deserialize] takes it neither for the empty
    message nor for one without a header. *)
Theorem serialize_has_separator
    (self : instance) (obj : Obj) (kwargs : pydict) (msg : bytes) :
  (serialize self obj kwargs).2 = Ok msg ->
  contains sep msg = true /\ msg <> [].
Proof.
  intros H. destruct (serialize_ok_inv self obj kwargs msg H)
    as (md & data & _ & ->).
  split; [apply contains_middle |].
  destruct (CodecProperties.dumps_object_last (dict_update md kwargs))
    as [body ->].
  intros Hnil. apply (f_equal length) in Hnil.
  rewrite !length_app in Hnil. cbn in Hnil. lia.
Qed.





(** Where a key is looked up after [d.update(kw)]. *)
Lemma dict_get_update (k : string) (d kw : pydict) :
  NoDup (dict_keys kw) ->
  dict_get k (dict_update d kw)
  = match dict_get k kw with
    | Some v => Some v
    | None => dict_get k d
    end.
Proof.
  unfold dict_update. revert d.
  induction kw as [| [k' v] kw IH]; intros d Hnd; [reflexivity |].
  cbn [dict_keys map fst] in Hnd. fold (dict_keys kw) in Hnd.
  apply NoDup_cons in Hnd as [Hk' Hnd].
  cbn [fold_left fst snd dict_get]. rewrite (IH _ Hnd).
  destruct (String.eqb_spec k k') as [-> | Hne].
  - rewrite (TypedefProperties.dict_get_absent k' kw Hk').
    apply DriverProperties.dict_get_set_eq.
  - rewrite DriverProperties.dict_get_set_ne by exact Hne. reflexivity.
Qed.

(** X12: the header that [serialize] writes is the metadata of [encode]
    overridden by the keywords of the call: a keyword wins over a metadata
    entry of the same key, [typename] included, every other metadata entry
    is kept, and the header always has a [typename]. *)
Theorem serialize_header_entries
    (self : instance) (obj : Obj) (kwargs : pydict) (msg : bytes) :
  NoDup (dict_keys kwargs) ->
  (serialize self obj kwargs).2 = Ok msg ->
  exists metadata header data,
    (encode obj (Some (self_typedef self))).2 = Ok (metadata, data)
    /\ msg = unicode2bytes (dumps (JObject header)) ++ sep ++ data
    /\ (forall k,
          dict_get k header
          = match dict_get k kwargs with
            | Some v => Some v
            | None => dict_get k metadata
            end)
    /\ dict_get "typename" header
       = Some (default (JStr name) (dict_get "typename" kwargs)).
Proof.
  intros Hnd H.
  destruct (serialize_ok_inv self obj kwargs msg H)
    as (md & data & Henc & ->).
  exists md, (dict_update md kwargs), data.
  split; [exact Henc |]. split; [reflexivity |].
  split; [intros k; apply dict_get_update; exact Hnd |].
  rewrite dict_get_update by exact Hnd.
  rewrite (encode_typename obj (Some (self_typedef self)) md data Henc).
  destruct (dict_get "typename" kwargs); reflexivity.
Qed.

End Envelope.

End EnvelopeProperties.

(** * Further properties of the RPC request driver *)

Module DriverExtras.
Import Py Json CommBase RPCRequestDriver Runs.
Local Open Scope list_scope.

Lemma filter_not_prunable_twice (l : list RPCResponseDriver) :
  List.filter (fun x => negb (prunable x))
    (List.filter (fun x => negb (prunable x)) l)
  = List.filter (fun x => negb (prunable x)) l.
Proof.
  induction l as [| x l IH]; cbn [List.filter]; [reflexivity |].
  destruct (prunable x) eqn:Hx; cbn [negb List.filter]; [exact IH |].
  rewrite Hx. cbn [negb]. rewrite IH. reflexivity.
Qed.

Lemma filter_prunable_of_kept (l : list RPCResponseDriver) :
  List.filter prunable (List.filter (fun x => negb (prunable x)) l) = [].
Proof.
  induction l as [| x l IH]; cbn [List.filter]; [reflexivity |].
  destruct (prunable x) eqn:Hx; cbn [negb List.filter]; [exact IH |].
  rewrite Hx. exact IH.
Qed.

(** A prune pass, as a function of the list of response drivers. *)
Lemma prune_spec (st : state) :
  response_drivers (prune_response_drivers st)
  = List.filter (fun x => negb (prunable x)) (response_drivers st)
  /\ trace (prune_response_drivers st)
     = trace st ++ map EvCleanup (List.filter prunable (response_drivers st)).
Proof.
  unfold prune_response_drivers.
  pose proof (DriverProperties.scan_spec (response_drivers st) [] st) as H.
  cbn [length app] in H.
  destruct (scan 0 (response_drivers st) st) as [idx st'].
  cbn [fst snd] in H. destruct H as (Hpop & Htr & Hrd & _).
  cbn. rewrite Hrd. split; assumption.
Qed.

(** X13: pruning twice is pruning once.  A second prune pass right after
    a first removes no driver and calls no [cleanup]. *)
Theorem prune_idempotent (st : state) :
  response_drivers (prune_response_drivers (prune_response_drivers st))
  = response_drivers (prune_response_drivers st)
  /\ emitted (prune_response_drivers st)
       (prune_response_drivers (prune_response_drivers st)) = [].
Proof.
  destruct (prune_spec st) as [Hrd Htr].
  destruct (prune_spec (prune_response_drivers st)) as [Hrd2 Htr2].
  split.
  - rewrite Hrd2, Hrd. apply filter_not_prunable_twice.
  - apply DriverProperties.emitted_app.
    rewrite Htr2, Hrd, filter_prunable_of_kept. reflexivity.
Qed.

(** The loop of [close_response_drivers] touches the trace only. *)
Lemma terminate_all_spec (l : list RPCResponseDriver) (st : state) :
  let st' := foldl (fun acc x => emit (EvTerminate x) acc) st l in
  trace st' = trace st ++ map EvTerminate l
  /\ response_drivers st' = response_drivers st
  /\ block_response st' = block_response st
  /\ ocomm_is_closed st' = ocomm_is_closed st
  /\ is_comm_open st' = is_comm_open st
  /\ models_input st' = models_input st
  /\ models_output st' = models_output st.
Proof.
  revert st. induction l as [| x l IH]; intros st; cbn [foldl map].
  - rewrite app_nil_r. repeat split.
  - destruct (IH (emit (EvTerminate x) st)) as (H1 & H2 & H3 & H4 & H5 & H6 & H7).
    cbn zeta in *. rewrite H1, H2, H3, H4, H5, H6, H7. cbn.
    rewrite <- app_assoc. repeat split.
Qed.

Section Shutdown.
Context {C : Collaborators}.

Lemma close_response_drivers_state (st : state) :
  block_response (close_response_drivers st) = true
  /\ ocomm_is_closed (close_response_drivers st) = ocomm_is_closed st.
Proof.
  unfold close_response_drivers.
  destruct (terminate_all_spec
              (response_drivers (set_block_response true st))
              (set_block_response true st))
    as (_ & _ & H3 & H4 & _).
  cbn zeta in *. cbn [set_response_drivers block_response ocomm_is_closed].
  split; [exact H3 | exact H4].
Qed.

(** X14: [close_response_drivers] calls [terminate] on every response
    driver, once each and in the order of the list, leaves the list empty
    and sets the flag that blocks new response drivers; the registries and
    the comm state are not touched. *)
Theorem close_response_drivers_terminates_all (st : state) :
  let st' := close_response_drivers st in
  emitted st st' = map EvTerminate (response_drivers st)
  /\ response_drivers st' = []
  /\ block_response st' = true
  /\ clients st' = clients st
  /\ ocomm_is_closed st' = ocomm_is_closed st
  /\ is_comm_open st' = is_comm_open st.
Proof.
  unfold close_response_drivers.
  destruct (terminate_all_spec
              (response_drivers (set_block_response true st))
              (set_block_response true st))
    as (H1 & H2 & H3 & H4 & H5 & H6 & H7).
  cbn zeta in *. cbn [set_response_drivers response_drivers block_response
                      ocomm_is_closed is_comm_open clients models
                      models_input].
  split; [apply DriverProperties.emitted_app; cbn; exact H1 |].
  split; [reflexivity |]. split; [exact H3 |]. split; [exact H6 |].
  split; [exact H4 | exact H5].
Qed.

(** X15: once the response drivers have been closed, no reply route is
    created any more: [send_message] refuses every message that is not an
    EOF, returns [False], constructs nothing and sends nothing. *)
Theorem send_after_close_refused
    (msg : CommMessage) (kw : send_kwargs) (st : state) :
  flag msg <> FLAG_EOF ->
  send_message msg kw (close_response_drivers st)
  = (Ok false, close_response_drivers st).
Proof.
  intros Hflag.
  destruct (close_response_drivers_state st) as [Hblock _].
  unfold send_message.
  destruct (ocomm_is_closed (close_response_drivers st)); [reflexivity |].
  assert (Hne : flag_eqb (flag msg) FLAG_EOF = false)
    by (destruct (flag msg); [reflexivity | congruence | reflexivity ..]).
  rewrite Hne, Hblock. cbn [negb]. rewrite orb_true_r. reflexivity.
Qed.

(** X16: a request without its correlation fields is an error of the
    caller.  When the driver is open and not blocked, a message that is not
    an EOF and lacks [response_address], [request_id] or [commtype] in its
    header makes [send_message] raise [KeyError] for the first of them that
    is missing, before any response driver is constructed; the driver state
    is unchanged. *)
Theorem send_message_missing_key
    (msg : CommMessage) (kw : send_kwargs) (st : state) :
  ocomm_is_closed st = false ->
  is_comm_open st = true ->
  block_response st = false ->
  flag msg <> FLAG_EOF ->
  (dict_get "response_address" (header msg) = None ->
   send_message msg kw st = (Raise (KeyError "response_address"), st))
  /\ (dict_get "response_address" (header msg) <> None ->
      dict_get "request_id" (header msg) = None ->
      send_message msg kw st = (Raise (KeyError "request_id"), st))
  /\ (dict_get "response_address" (header msg) <> None ->
      dict_get "request_id" (header msg) <> None ->
      dict_get "commtype" (header msg) = None ->
      send_message msg kw st = (Raise (KeyError "commtype"), st)).
Proof.
  intros Hclosed Hopen Hblock Hflag.
  assert (Hne : flag_eqb (flag msg) FLAG_EOF = false)
    by (destruct (flag msg); [reflexivity | congruence | reflexivity ..]).
  unfold send_message. rewrite Hclosed, Hne, Hopen, Hblock. cbn [negb orb].
  split; [intros ->; reflexivity |]. split.
  - intros Ha ->.
    destruct (dict_get "response_address" (header msg)); [reflexivity |].
    congruence.
  - intros Ha Hr ->.
    destruct (dict_get "response_address" (header msg)); [| congruence].
    destruct (dict_get "request_id" (header msg)); [reflexivity | congruence].
Qed.

Lemma dict_get_setdefault (k k' : string) (v : json) (d : pydict) :
  dict_get k (dict_setdefault k' v d)
  = match dict_get k d with
    | Some x => Some x
    | None => if String.eqb k k' then Some v else None
    end.
Proof.
  unfold dict_setdefault.
  destruct (String.eqb_spec k k') as [-> | Hne].
  - destruct (dict_get k' d) eqn:Hg; [rewrite Hg; reflexivity |].
    apply DriverProperties.dict_get_set_eq.
  - destruct (dict_get k' d).
    + destruct (dict_get k d); reflexivity.
    + rewrite DriverProperties.dict_get_set_ne by exact Hne.
      destruct (dict_get k d); reflexivity.
Qed.

(** X17: the correlation fields are defaults, not overrides.  The request
    that [send_message] hands to the parent carries in [header_kwargs]
    every entry the caller passed, unchanged; only where the caller gave no
    value, [response_address] is the address of the started response
    driver, [request_id] the id in the header of the message and [model]
    the model named there (or the empty string).  Other keywords are
    passed on as they are. *)
Theorem request_tags_are_defaults
    (msg m : CommMessage) (kw k : send_kwargs) (st : state) :
  flag msg <> FLAG_EOF ->
  In (EvBaseSend m k) (emitted st (send_message msg kw st).2) ->
  exists hk drv request_id,
    header_kwargs k = Some hk
    /\ skip_processing k = skip_processing kw
    /\ In (EvStarted drv) (emitted st (send_message msg kw st).2)
    /\ dict_get "request_id" (header msg) = Some request_id
    /\ forall key,
         dict_get key hk
         = match dict_get key (default [] (header_kwargs kw)) with
           | Some v => Some v
           | None =>
               if String.eqb key "response_address"
               then Some (response_address drv)
               else if String.eqb key "request_id" then Some request_id
               else if String.eqb key "model"
               then Some (default (JStr "") (dict_get "model" (header msg)))
               else None
           end.
Proof.
  intros Hflag Hin.
  pose proof (DriverProperties.send_message_dispatch msg kw st Hflag) as D.
  destruct (send_message msg kw st) as [r st']. cbn [snd] in *.
  inversion D; subst;
    try (rewrite DriverProperties.emitted_refl in Hin; destruct Hin);
    try match goal with
        | H : emitted _ _ = _ |- _ => rewrite H in Hin |- *
        end.
  - destruct Hin as [Hin | []]. discriminate Hin.
  - destruct Hin as [Hin | [Hin | []]]; discriminate Hin.
  - destruct Hin as [Hin | [Hin | [Hin | []]]]; try discriminate Hin.
    injection Hin as <- <-.
    eexists _, drv', request_id.
    split; [reflexivity |]. split; [reflexivity |].
    split; [right; left; reflexivity |]. split; [assumption |].
    intros key. rewrite !dict_get_setdefault.
    destruct (dict_get key (default [] (header_kwargs kw))); [reflexivity |].
    destruct (String.eqb key "response_address"); [reflexivity |].
    destruct (String.eqb key "request_id"); reflexivity.
Qed.

(** X18: an EOF that names no client of the driver (or names none at
    all).  While clients remain it is swallowed: [on_eof] changes nothing,
    sends nothing and hands the loop an empty message.  When the driver has
    no client left it calls [send_eof] and passes the EOF to the parent's
    [on_eof]. *)
Theorem on_eof_unknown_model (msg : CommMessage) (st : state) :
  name_in (default (JStr "") (dict_get "model" (header msg))) (clients st)
  = false ->
  (clients st <> ∅ ->
   on_eof msg st
   = ({| args := icomm_empty_obj_recv st; flag := FLAG_EMPTY; header := [] |},
      st))
  /\ (clients st = ∅ ->
      on_eof msg st
      = (base_on_eof_result msg, emit (EvBaseOnEof msg) (send_eof st))).
Proof.
  intros Habs. unfold on_eof.
  rewrite (DriverProperties.remove_model_absent Input _ st Habs).
  cbn [snd models]. fold (clients st). split.
  - intros Hne. rewrite bool_decide_false by exact Hne.
    unfold nclients. rewrite DriverProperties.size_zero_empty.
    rewrite bool_decide_false by exact Hne. reflexivity.
  - intros He. rewrite bool_decide_true by exact He.
    unfold nclients.
    change (clients (send_eof st)) with (clients st).
    rewrite DriverProperties.size_zero_empty.
    rewrite bool_decide_true by exact He. reflexivity.
Qed.

(** X19: the "client end" sentinel goes out exactly for a client that
    signs off: [remove_model] hands it to the parent's [send_message] once
    when the direction is input and the name is in the Client Set, and
    hands nothing to it otherwise (an unknown name, or the output
    direction). *)
Theorem client_end_only_for_clients (d : direction) (nm : json) (st : state) :
  List.filter is_base_send (emitted st (remove_model d nm st).2)
  = match d with
    | Input => if name_in nm (clients st) then [client_end nm] else []
    | Output => []
    end.
Proof.
  destruct (DriverProperties.remove_model_spec d nm st)
    as (_ & _ & _ & _ & _ & Htr).
  rewrite (DriverProperties.emitted_app _ _ _ Htr).
  rewrite List.filter_app.
  destruct (bool_decide (without nm (models d st) = ∅)); cbn [List.filter];
    cbn [is_base_send]; rewrite app_nil_r;
    (destruct d; [destruct (name_in nm (clients st)) |]; reflexivity).
Qed.

End Shutdown.

End DriverExtras.

(** * Properties of the comm helpers *)

Module CommunicationProperties.
Import Py Json Communication CommExamples.
Local Open Scope list_scope.

(** X20: [determine_suffix] checks the direction before anything else: a
    direction other than ['send'] and ['recv'] raises [ValueError] even
    when no suffix is asked for, and with one of the two directions the
    call returns the empty suffix, ['_OUT'] or ['_IN']. *)
Theorem determine_suffix_checks_direction
    (no_suffix reverse_names : bool) (direction : string) :
  (direction <> "send" -> direction <> "recv" ->
   determine_suffix no_suffix reverse_names direction
   = Raise (ValueError "Unrecognized message direction: %s"))
  /\ (direction = "send" \/ direction = "recv" ->
      exists suffix,
        determine_suffix no_suffix reverse_names direction = Ok suffix
        /\ (no_suffix = true -> suffix = EmptyString)
        /\ (no_suffix = false -> suffix = "_OUT" \/ suffix = "_IN")).
Proof.
  unfold determine_suffix. split.
  - intros Hs Hr. apply String.eqb_neq in Hs, Hr. rewrite Hs, Hr.
    reflexivity.
  - intros [-> | ->]; cbn; destruct no_suffix, reverse_names;
      eexists; (split; [reflexivity |]); split; intros H;
      try discriminate H; auto.
Qed.

(** X21: the two ends of a channel get complementary suffixes: for either
    setting of [reverse_names] the sending and the receiving direction get
    different suffixes, and reversing the names gives each direction the
    suffix of the other. *)
Theorem determine_suffix_complementary (reverse_names : bool) :
  determine_suffix false reverse_names "send"
  <> determine_suffix false reverse_names "recv"
  /\ determine_suffix false (negb reverse_names) "send"
     = determine_suffix false reverse_names "recv"
  /\ determine_suffix false (negb reverse_names) "recv"
     = determine_suffix false reverse_names "send".
Proof.
  destruct reverse_names; cbn; repeat split; discriminate.
Qed.

(** The keywords the mode adds. *)
Lemma mode_kwargs_spec (mode : string) (kwargs kw : pydict) :
  mode_kwargs mode kwargs = Ok kw ->
  dict_get "direction" kw
  = Some (JStr (if String.eqb mode "r" then "recv" else "send"))
  /\ (mode = "a" -> dict_get "append" kw = Some (JBool true))
  /\ (mode <> "a" -> dict_get "append" kw = dict_get "append" kwargs).
Proof.
  unfold mode_kwargs.
  destruct (String.eqb_spec mode "r") as [-> | Hr].
  - intros [= <-]. rewrite DriverProperties.dict_get_set_eq.
    split; [reflexivity |]. split; [discriminate |].
    intros _. apply DriverProperties.dict_get_set_ne. discriminate.
  - destruct (String.eqb_spec mode "a") as [-> | Ha].
    + cbn [orb String.eqb]. rewrite orb_true_r. intros [= <-].
      rewrite DriverProperties.dict_get_set_eq.
      rewrite DriverProperties.dict_get_set_ne by discriminate.
      rewrite DriverProperties.dict_get_set_eq.
      split; [reflexivity |]. split; [reflexivity | congruence].
    + rewrite orb_false_r.
      destruct (String.eqb mode "w"); [| discriminate].
      intros [= <-]. rewrite DriverProperties.dict_get_set_eq.
      split; [reflexivity |]. split; [congruence |].
      intros _. apply DriverProperties.dict_get_set_ne. discriminate.
Qed.

Section Files.
Context {F : FileComponents} {A : Type}.

(** X22: [open_file_comm] closes the comm it opened, and only that.  The
    statement either creates no comm at all and raises before the block
    runs (unknown file type, unsupported mode, a failing constructor), or
    it creates one comm, runs the block and closes the comm afterwards,
    whether the block returned or raised; the outcome of the block is the
    outcome of the statement. *)
Theorem open_file_comm_closes_what_it_opens
    (fname mode filetype : string) (kwargs : pydict) (body : res A) :
  (exists e,
     open_file_comm fname mode filetype kwargs body = ([], Raise e))
  \/ (exists args,
        open_file_comm fname mode filetype kwargs body
        = ([FileCommCreated filetype args; FileCommClosed], body)
        /\ dict_get "address" args = Some (JStr fname)
        /\ file_comm_init filetype args = None).
Proof.
  unfold open_file_comm.
  destruct (import_file_component filetype) as [e |]; [left; eauto |].
  destruct (mode_kwargs mode kwargs) as [kw | e]; [| left; eauto].
  destruct (dict_mem "address" kw); [left; eauto |].
  destruct (file_comm_init filetype (("address", JStr fname) :: kw))
    as [e |] eqn:Hinit; [left; eauto |].
  right. eexists. split; [reflexivity |]. split; [reflexivity | exact Hinit].
Qed.

(** X23: how [open_file_comm] reads the mode.  ['r'] opens the comm for
    receiving; ['w'] and ['a'] open it for sending, ['a'] with [append]
    set; the keywords of the caller cannot override the direction.  Any
    other mode raises [ValueError] and no comm is created. *)
Theorem open_file_comm_mode
    (fname mode filetype : string) (kwargs : pydict) (body : res A) :
  import_file_component filetype = None ->
  (mode <> "r" -> mode <> "w" -> mode <> "a" ->
   open_file_comm fname mode filetype kwargs body
   = ([], Raise (ValueError "Unsupported mode: '%s'")))
  /\ (forall args,
        In (FileCommCreated filetype args)
          (open_file_comm fname mode filetype kwargs body).1 ->
        dict_get "direction" args
        = Some (JStr (if String.eqb mode "r" then "recv" else "send"))
        /\ (mode = "a" -> dict_get "append" args = Some (JBool true))
        /\ (mode <> "a" -> dict_get "append" args = dict_get "append" kwargs)).
Proof.
  intros Himp. unfold open_file_comm. rewrite Himp. split.
  - intros Hr Hw Ha. unfold mode_kwargs.
    apply String.eqb_neq in Hr, Hw, Ha. rewrite Hr, Hw, Ha. reflexivity.
  - intros args.
    destruct (mode_kwargs mode kwargs) as [kw | e] eqn:Hkw; [| intros []].
    destruct (dict_mem "address" kw); [intros [] |].
    destruct (file_comm_init _ _); [intros [] |].
    intros [[= <-] | [H | []]]; [| discriminate H].
    destruct (mode_kwargs_spec mode kwargs kw Hkw) as (Hd & Ha & Hna).
    cbn [dict_get]. change (String.eqb "direction" "address") with false.
    change (String.eqb "append" "address") with false. cbn iota.
    split; [exact Hd |]. split; assumption.
Qed.

End Files.

End CommunicationProperties.

(** * Properties of the table comm *)

Module AsciiTableProperties.
Import Py Json Typedef AsciiTableComm CommExamples.
Local Open Scope list_scope.

Lemma dict_keys_del_subset (k x : string) (d : pydict) :
  x ∈ dict_keys (dict_del k d) -> x ∈ dict_keys d.
Proof.
  induction d as [| [k' v] d IH]; cbn [dict_del dict_keys map fst];
    [intros H; exact H |].
  destruct (String.eqb k k'); cbn [map fst]; intros H.
  - apply elem_of_cons. right. exact H.
  - apply elem_of_cons in H as [-> | H]; apply elem_of_cons;
      [left; reflexivity | right; apply IH, H].
Qed.

Lemma NoDup_dict_del (k : string) (d : pydict) :
  NoDup (dict_keys d) -> NoDup (dict_keys (dict_del k d)).
Proof.
  induction d as [| [k' v] d IH]; cbn [dict_del dict_keys map fst];
    [intros H; exact H |].
  intros Hnd. apply NoDup_cons in Hnd as [Hk Hnd].
  destruct (String.eqb k k'); [exact Hnd |].
  cbn [map fst]. apply NoDup_cons. split; [| apply IH, Hnd].
  intros Hin. apply Hk. exact (dict_keys_del_subset k k' d Hin).
Qed.

Lemma dict_get_del (k k' : string) (d : pydict) :
  NoDup (dict_keys d) ->
  dict_get k (dict_del k' d)
  = if String.eqb k k' then None else dict_get k d.
Proof.
  induction d as [| [k0 v] d IH]; cbn [dict_del dict_get dict_keys map fst];
    intros Hnd.
  - destruct (String.eqb k k'); reflexivity.
  - apply NoDup_cons in Hnd as [Hk0 Hnd].
    destruct (String.eqb_spec k' k0) as [-> | Hne0].
    + destruct (String.eqb_spec k k0) as [-> | Hne]; [| reflexivity].
      apply TypedefProperties.dict_get_absent. exact Hk0.
    + cbn [dict_get]. rewrite (IH Hnd).
      destruct (String.eqb_spec k k0) as [-> | Hne]; [| reflexivity].
      destruct (String.eqb_spec k0 k') as [<- | _]; [congruence | reflexivity].
Qed.

(** The popping loop, by lookups. *)
Lemma pop_file_kwargs_spec (keys : list string) (file_kw kwargs : pydict) :
  NoDup (dict_keys kwargs) ->
  let r := pop_file_kwargs keys file_kw kwargs in
  (forall k,
     dict_get k r.2
     = if existsb (String.eqb k) keys then None else dict_get k kwargs)
  /\ (forall k,
        dict_get k r.1
        = if existsb (String.eqb k) keys then
            match dict_get k kwargs with
            | Some v => Some v
            | None => dict_get k file_kw
            end
          else dict_get k file_kw).
Proof.
  revert file_kw kwargs.
  induction keys as [| k0 keys IH]; intros file_kw kwargs Hnd;
    cbn [pop_file_kwargs existsb].
  - split; intros k; reflexivity.
  - destruct (dict_get k0 kwargs) as [v0 |] eqn:Hg.
    + destruct (IH (dict_set k0 v0 file_kw) (dict_del k0 kwargs)
                  (NoDup_dict_del k0 kwargs Hnd)) as [H2 H1].
      cbn zeta in *. split; intros k.
      * rewrite H2, (dict_get_del k k0 kwargs Hnd).
        destruct (String.eqb k k0); cbn [orb];
          destruct (existsb (String.eqb k) keys); reflexivity.
      * rewrite H1, (dict_get_del k k0 kwargs Hnd).
        destruct (String.eqb_spec k k0) as [-> | Hne]; cbn [orb].
        -- rewrite Hg, DriverProperties.dict_get_set_eq.
           destruct (existsb (String.eqb k0) keys); reflexivity.
        -- rewrite DriverProperties.dict_get_set_ne by exact Hne.
           reflexivity.
    + destruct (IH file_kw kwargs Hnd) as [H2 H1].
      cbn zeta in *. split; intros k.
      * rewrite H2.
        destruct (String.eqb_spec k k0) as [-> | Hne]; cbn [orb];
          [| reflexivity].
        rewrite Hg. destruct (existsb (String.eqb k0) keys); reflexivity.
      * rewrite H1.
        destruct (String.eqb_spec k k0) as [-> | Hne]; cbn [orb];
          [| reflexivity].
        rewrite Hg. destruct (existsb (String.eqb k0) keys); reflexivity.
Qed.

Lemma NoDup_dict_set (k : string) (v : json) (d : pydict) :
  NoDup (dict_keys d) -> NoDup (dict_keys (dict_set k v d)).
Proof.
  intros Hnd. destruct (dict_get k d) eqn:Hg.
  - assert (Hkeys : dict_keys (dict_set k v d) = dict_keys d).
    { clear Hnd. induction d as [| [k' v'] d IHd]; [discriminate Hg |].
      cbn [dict_get dict_set] in *.
      destruct (String.eqb_spec k k') as [-> | Hne]; [reflexivity |].
      cbn [dict_keys map fst]. f_equal. apply IHd. exact Hg. }
    rewrite Hkeys. exact Hnd.
  - rewrite TypedefProperties.dict_keys_set by exact Hg.
    apply NoDup_app. split; [exact Hnd |]. split; [| apply NoDup_singleton].
    intros x Hx Hin. apply list_elem_of_singleton in Hin. subst x.
    exact (TypedefProperties.dict_get_none_absent _ _ Hg Hx).
Qed.

Lemma NoDup_pop_file_kwargs (keys : list string) (file_kw kwargs : pydict) :
  NoDup (dict_keys file_kw) ->
  NoDup (dict_keys (pop_file_kwargs keys file_kw kwargs).1).
Proof.
  revert file_kw kwargs.
  induction keys as [| k0 keys IH]; intros file_kw kwargs Hnd;
    cbn [pop_file_kwargs]; [exact Hnd |].
  destruct (dict_get k0 kwargs) as [v0 |]; [| apply IH, Hnd].
  apply IH. apply NoDup_dict_set. exact Hnd.
Qed.

Section Comm.
Context {P : Parent}.

(** [__init__] by what it hands to the parent and to the table. *)
Lemma init_ok_inv (name : string) (as_array dont_open : bool)
    (kwargs : pydict) (self : comm) :
  init name as_array dont_open kwargs = Ok self ->
  exists base,
    base_init name (parent_kwargs self) = Ok base
    /\ parent_kwargs self
       = ("dont_open", JBool true) :: ("skip_AsciiFile", JBool true)
         :: (pop_file_kwargs file_keys [] kwargs).2
    /\ table_kwargs (file self)
       = dict_update (file_kwargs base)
           (pop_file_kwargs file_keys [] kwargs).1
    /\ table_address (file self) = address base
    /\ table_mode (file self)
       = (if String.eqb (direction base) "recv" then "r"
          else if append base then "a" else "w")
    /\ is_open self = negb dont_open.
Proof.
  unfold init.
  destruct (pop_file_kwargs file_keys [] kwargs) as [file_kw kw].
  destruct (dict_mem "skip_AsciiFile" kw); [discriminate |].
  destruct (base_init name _) as [base | e] eqn:Hb; [| discriminate].
  intros [= <-]. cbn. exists base. repeat split. exact Hb.
Qed.

(** X24: which keywords reach the table.  Of the keywords of [__init__],
    [format_str], [dtype] and [column_names] are taken out and given to the
    [AsciiTable]; every other keyword goes to the parent class.  That
    includes [column] and [use_astropy]: the list of table keywords names
    them as the single key [columnuse_astropy], so they are never taken
    out. *)
Theorem init_table_keywords (name : string) (as_array dont_open : bool)
    (kwargs : pydict) (self : comm) :
  NoDup (dict_keys kwargs) ->
  init name as_array dont_open kwargs = Ok self ->
  (forall k v,
     k = "format_str" \/ k = "dtype" \/ k = "column_names" ->
     dict_get k kwargs = Some v ->
     dict_get k (table_kwargs (file self)) = Some v
     /\ dict_get k (parent_kwargs self) = None)
  /\ (forall k,
        k = "column" \/ k = "use_astropy" ->
        dict_get k (parent_kwargs self) = dict_get k kwargs)
  /\ (forall k,
        k ∉ file_keys -> k <> "dont_open" -> k <> "skip_AsciiFile" ->
        dict_get k (parent_kwargs self) = dict_get k kwargs).
Proof.
  intros Hnd Hinit.
  destruct (init_ok_inv _ _ _ _ _ Hinit)
    as (base & _ & Hpk & Htk & _).
  destruct (pop_file_kwargs_spec file_keys [] kwargs Hnd) as [H2 H1].
  cbn zeta in *. rewrite Hpk, Htk.
  assert (Hrest : forall k,
            k <> "dont_open" -> k <> "skip_AsciiFile" ->
            dict_get k
              (("dont_open", JBool true) :: ("skip_AsciiFile", JBool true)
               :: (pop_file_kwargs file_keys [] kwargs).2)
            = if existsb (String.eqb k) file_keys then None
              else dict_get k kwargs).
  { intros k Hd Hs. cbn [dict_get].
    apply String.eqb_neq in Hd, Hs. rewrite Hd, Hs. apply H2. }
  split; [| split].
  - intros k v Hk Hv. split.
    + rewrite EnvelopeProperties.dict_get_update
        by (apply NoDup_pop_file_kwargs; apply NoDup_nil; exact I).
      rewrite H1, Hv.
      destruct Hk as [-> | [-> | ->]]; reflexivity.
    + rewrite Hrest by (destruct Hk as [-> | [-> | ->]]; discriminate).
      destruct Hk as [-> | [-> | ->]]; reflexivity.
  - intros k Hk.
    rewrite Hrest by (destruct Hk as [-> | ->]; discriminate).
    destruct Hk as [-> | ->]; reflexivity.
  - intros k Hk Hd Hs. rewrite (Hrest k Hd Hs).
    destruct (existsb (String.eqb k) file_keys) eqn:Hex; [| reflexivity].
    exfalso. apply Hk. apply existsb_exists in Hex as (x & Hx & Heq).
    apply String.eqb_eq in Heq. subst x. apply list_elem_of_In. exact Hx.
Qed.

(** Where a key is looked up in what [opp_comm_kwargs] returns. *)
Lemma opp_comm_kwargs_get (self : comm) (k : string) :
  dict_get k (opp_comm_kwargs self)
  = if String.eqb k "use_astropy" || String.eqb k "column"
       || String.eqb k "column_names" || String.eqb k "dtype"
       || String.eqb k "format_str"
    then Some (table_attr (file self) k)
    else dict_get k (base_opp_comm_kwargs (parent self)).
Proof.
  unfold opp_comm_kwargs.
  repeat match goal with
         | |- context [dict_get k (dict_set ?k' ?v ?d)] =>
             destruct (String.eqb_spec k k') as [-> | ?];
             [rewrite DriverProperties.dict_get_set_eq; reflexivity
             | rewrite (DriverProperties.dict_get_set_ne k k' v d)
                 by assumption]
         end.
  reflexivity.
Qed.

Lemma NoDup_opp_comm_kwargs (self : comm) :
  NoDup (dict_keys (base_opp_comm_kwargs (parent self))) ->
  NoDup (dict_keys (opp_comm_kwargs self)).
Proof.
  intros H. unfold opp_comm_kwargs.
  repeat apply NoDup_dict_set. exact H.
Qed.

(** X25: [opp_comm_kwargs] describes the table to the other end: the
    keywords it returns have [format_str], [dtype], [column_names],
    [column] and [use_astropy] set to the attributes of the table of this
    comm, over whatever the parent class had under those keys, and every
    other keyword of the parent class unchanged. *)
Theorem opp_comm_kwargs_describes_table (self : comm) :
  (forall k,
     In k ["format_str"; "dtype"; "column_names"; "column"; "use_astropy"] ->
     dict_get k (opp_comm_kwargs self) = Some (table_attr (file self) k))
  /\ (forall k,
        ~ In k ["format_str"; "dtype"; "column_names"; "column";
                "use_astropy"] ->
        dict_get k (opp_comm_kwargs self)
        = dict_get k (base_opp_comm_kwargs (parent self))).
Proof.
  split; intros k Hk; rewrite opp_comm_kwargs_get.
  - cbn [In] in Hk.
    destruct Hk as [<- | [<- | [<- | [<- | [<- | []]]]]]; reflexivity.
  - cbn [In] in Hk.
    destruct (String.eqb_spec k "use_astropy") as [-> | ?];
      [exfalso; apply Hk; tauto |].
    destruct (String.eqb_spec k "column") as [-> | ?];
      [exfalso; apply Hk; tauto |].
    destruct (String.eqb_spec k "column_names") as [-> | ?];
      [exfalso; apply Hk; tauto |].
    destruct (String.eqb_spec k "dtype") as [-> | ?];
      [exfalso; apply Hk; tauto |].
    destruct (String.eqb_spec k "format_str") as [-> | ?];
      [exfalso; apply Hk; tauto |].
    reflexivity.
Qed.

(** X26: the keywords of one end do not all reach the table of the other.
    When a comm is constructed from the [opp_comm_kwargs] of another, its
    table gets the [format_str], [dtype] and [column_names] of the other
    table, but [column] and [use_astropy] are handed to the parent class
    instead. *)
Theorem init_from_opp_comm_kwargs (other self : comm) (name : string)
    (as_array dont_open : bool) :
  NoDup (dict_keys (base_opp_comm_kwargs (parent other))) ->
  init name as_array dont_open (opp_comm_kwargs other) = Ok self ->
  (forall k,
     In k ["format_str"; "dtype"; "column_names"] ->
     dict_get k (table_kwargs (file self))
     = Some (table_attr (file other) k)
     /\ dict_get k (parent_kwargs self) = None)
  /\ (forall k,
        In k ["column"; "use_astropy"] ->
        dict_get k (parent_kwargs self) = Some (table_attr (file other) k)).
Proof.
  intros Hnd0 Hinit.
  pose proof (NoDup_opp_comm_kwargs other Hnd0) as Hnd.
  destruct (init_ok_inv _ _ _ _ _ Hinit) as (base & _ & Hpk & Htk & _).
  destruct (pop_file_kwargs_spec file_keys [] (opp_comm_kwargs other) Hnd)
    as [H2 H1].
  cbn zeta in *. rewrite Hpk, Htk. split.
  - intros k Hk. cbn [In] in Hk. split.
    + rewrite EnvelopeProperties.dict_get_update
        by (apply NoDup_pop_file_kwargs; apply NoDup_nil; exact I).
      rewrite H1, opp_comm_kwargs_get.
      destruct Hk as [<- | [<- | [<- | []]]]; reflexivity.
    + cbn [dict_get].
      destruct Hk as [<- | [<- | [<- | []]]]; cbn [String.eqb Ascii.eqb Bool.eqb];
        rewrite H2; reflexivity.
  - intros k Hk. cbn [In] in Hk. cbn [dict_get].
    destruct Hk as [<- | [<- | []]]; cbn [String.eqb Ascii.eqb Bool.eqb];
      rewrite H2, opp_comm_kwargs_get; reflexivity.
Qed.

End Comm.

End AsciiTableProperties.

(** * Construction and environment of the request driver *)

Module SetupProperties.
Import Py Json CommBase RPCRequestDriver RequestDriverSetup CommExamples.
Local Open Scope list_scope.

(** What [__init__] passes to the parent class, by lookups. *)
Lemma init_kwargs_spec (kwargs kw : pydict) :
  init_kwargs kwargs = Ok kw ->
  exists o rest,
    default (JList [JObject []]) (dict_get "outputs" kwargs)
    = JList (JObject o :: rest)
    /\ dict_get "outputs" kw
       = Some (JList
                 (JObject
                    (dict_set "close_on_eof_send" (JBool false)
                       (dict_set "is_client" (JBool true) o)) :: rest))
    /\ dict_get "inputs" kw
       = Some (default (JList [JObject []]) (dict_get "inputs" kwargs))
    /\ forall k,
         k <> "inputs" -> k <> "outputs" -> dict_get k kw = dict_get k kwargs.
Proof.
  unfold init_kwargs.
  assert (Hout :
    dict_get "outputs"
      (dict_set "inputs"
         (default (JList [JObject []]) (dict_get "inputs" kwargs)) kwargs)
    = dict_get "outputs" kwargs)
    by (apply DriverProperties.dict_get_set_ne; discriminate).
  rewrite Hout.
  destruct (default (JList [JObject []]) (dict_get "outputs" kwargs))
    as [| | | | [| [| | | | | o] rest] |]; cbn [mark_client];
    try discriminate.
  intros [= <-]. exists o, rest.
  split; [reflexivity |].
  split; [apply DriverProperties.dict_get_set_eq |]. split.
  - rewrite DriverProperties.dict_get_set_ne by discriminate.
    apply DriverProperties.dict_get_set_eq.
  - intros k Hi Ho. rewrite !DriverProperties.dict_get_set_ne by assumption.
    reflexivity.
Qed.

Section Setup.
Context {B : ParentDriver}.

(** X27: how a request driver is wired.  When [__init__] succeeds, the
    parent class was constructed with the first output comm marked
    [is_client] and with [close_on_eof_send] off, whatever the caller had
    put there, the other outputs and keywords being passed as given and
    the inputs defaulting to one comm with no options; the driver starts
    with no response driver and unblocked; and the response comm type is
    the one the caller asked for, or else that of the output comm. *)
Theorem init_wires_request_driver
    (model_request_name : string) (response_kw : option pydict)
    (kwargs : pydict) (st : state) :
  init model_request_name response_kw kwargs = Ok st ->
  exists kw st0 commtype o rest,
    base_init model_request_name kw = Ok (st0, commtype)
    /\ default (JList [JObject []]) (dict_get "outputs" kwargs)
       = JList (JObject o :: rest)
    /\ dict_get "outputs" kw
       = Some (JList
                 (JObject
                    (dict_set "close_on_eof_send" (JBool false)
                       (dict_set "is_client" (JBool true) o)) :: rest))
    /\ dict_get "inputs" kw
       = Some (default (JList [JObject []]) (dict_get "inputs" kwargs))
    /\ (forall k,
          k <> "inputs" -> k <> "outputs" ->
          dict_get k kw = dict_get k kwargs)
    /\ response_drivers st = []
    /\ block_response st = false
    /\ dict_get "commtype" (response_kwargs st)
       = Some (default commtype
                 (dict_get "commtype" (default [] response_kw)))
    /\ clients st = clients st0.
Proof.
  unfold init.
  destruct (init_kwargs kwargs) as [kw | e] eqn:Hkw; [| discriminate].
  destruct (base_init model_request_name kw) as [[st0 ct] | e] eqn:Hb;
    [| discriminate].
  intros [= <-].
  destruct (init_kwargs_spec kwargs kw Hkw) as (o & rest & H1 & H2 & H3 & H4).
  exists kw, st0, ct, o, rest.
  split; [exact Hb |]. split; [exact H1 |]. split; [exact H2 |].
  split; [exact H3 |]. split; [exact H4 |].
  split; [reflexivity |]. split; [reflexivity |]. split; [| reflexivity].
  cbn [with_response response_kwargs].
  rewrite DriverExtras.dict_get_setdefault.
  destruct (dict_get "commtype" (default [] response_kw)); reflexivity.
Qed.

(** X28: a request driver needs an output comm.  With an empty list of
    outputs [__init__] raises [IndexError], and with an output that is no
    mapping it raises [TypeError]; in both cases before the parent class is
    constructed, so for every parent class. *)
Theorem init_needs_an_output
    (model_request_name : string) (response_kw : option pydict)
    (kwargs : pydict) :
  (dict_get "outputs" kwargs = Some (JList []) ->
   init model_request_name response_kw kwargs = Raise IndexError)
  /\ (forall x rest,
        dict_get "outputs" kwargs = Some (JList (x :: rest)) ->
        (forall o, x <> JObject o) ->
        init model_request_name response_kw kwargs
        = Raise (TypeError "object does not support item assignment")).
Proof.
  assert (Hout :
    dict_get "outputs"
      (dict_set "inputs"
         (default (JList [JObject []]) (dict_get "inputs" kwargs)) kwargs)
    = dict_get "outputs" kwargs)
    by (apply DriverProperties.dict_get_set_ne; discriminate).
  unfold init, init_kwargs. rewrite Hout. split.
  - intros ->. reflexivity.
  - intros x rest -> Hx. cbn [default from_option id mark_client].
    destruct x; try reflexivity. exfalso. exact (Hx d eq_refl).
Qed.

End Setup.

(** The loop of [model_env], by lookups. *)
Lemma mark_server_spec (keys : list string) (out out' : pydict) :
  NoDup keys ->
  mark_server keys out = Ok out' ->
  (forall k,
     k ∈ keys ->
     exists env,
       dict_get k out = Some (JObject env)
       /\ dict_get k out'
          = Some (JObject (dict_set "YGG_IS_SERVER" (JStr "True") env)))
  /\ (forall k, k ∉ keys -> dict_get k out' = dict_get k out).
Proof.
  revert out. induction keys as [| k0 keys IH]; intros out Hnd;
    cbn [mark_server].
  - intros [= <-]. split; [intros k Hk; apply elem_of_nil in Hk; tauto |].
    reflexivity.
  - apply NoDup_cons in Hnd as [Hk0 Hnd].
    destruct (dict_get k0 out) as [[| | | | | env] |] eqn:Hg;
      try discriminate.
    intros Hrec. destruct (IH _ Hnd Hrec) as [Hin Hout]. split.
    + intros k Hk. apply elem_of_cons in Hk as [-> | Hk].
      * exists env. split; [exact Hg |].
        rewrite (Hout k0 Hk0). apply DriverProperties.dict_get_set_eq.
      * destruct (Hin k Hk) as (env' & Hget & Hget').
        assert (Hne : k <> k0) by (intros ->; contradiction).
        rewrite DriverProperties.dict_get_set_ne in Hget by exact Hne.
        exists env'. split; assumption.
    + intros k Hk. apply not_elem_of_cons in Hk as [Hne Hk].
      rewrite (Hout k Hk).
      apply DriverProperties.dict_get_set_ne. exact Hne.
Qed.

(** X29: [model_env] marks the models of the output comm as talking to a
    server.  In what it returns, the environment of every model that
    [ocomm.model_env] names is the one the parent class gave with
    [YGG_IS_SERVER] set to ['True'] and its other variables unchanged, and
    the environments of the other models are as the parent class gave
    them. *)
Theorem model_env_marks_server (base_env ocomm_env out : pydict) :
  NoDup (Typedef.dict_keys ocomm_env) ->
  model_env base_env ocomm_env = Ok out ->
  (forall k,
     k ∈ Typedef.dict_keys ocomm_env ->
     exists env env',
       dict_get k base_env = Some (JObject env)
       /\ dict_get k out = Some (JObject env')
       /\ dict_get "YGG_IS_SERVER" env' = Some (JStr "True")
       /\ forall x, x <> "YGG_IS_SERVER" -> dict_get x env' = dict_get x env)
  /\ (forall k,
        k ∉ Typedef.dict_keys ocomm_env ->
        dict_get k out = dict_get k base_env).
Proof.
  intros Hnd Hok. unfold model_env in Hok.
  destruct (mark_server_spec _ _ _ Hnd Hok) as [Hin Hout].
  split; [| exact Hout].
  intros k Hk. destruct (Hin k Hk) as (env & Hg & Hg').
  exists env, (dict_set "YGG_IS_SERVER" (JStr "True") env).
  split; [exact Hg |]. split; [exact Hg' |].
  split; [apply DriverProperties.dict_get_set_eq |].
  intros x Hx. apply DriverProperties.dict_get_set_ne. exact Hx.
Qed.

(** X30: [model_env] fails on a model the parent class does not know: when
    [ocomm.model_env] names a model that has no environment in the
    parent's [model_env], the call raises [KeyError] for the first such
    model. *)
Theorem model_env_unknown_model
    (base_env ocomm_env : pydict) (known : list string) (k : string)
    (rest : list string) :
  Typedef.dict_keys ocomm_env = known ++ k :: rest ->
  NoDup known ->
  (forall x, x ∈ known -> exists env, dict_get x base_env = Some (JObject env)) ->
  dict_get k base_env = None ->
  k ∉ known ->
  model_env base_env ocomm_env = Raise (KeyError k).
Proof.
  intros Hkeys Hnd Hknown Hk Hnotin. unfold model_env. rewrite Hkeys.
  clear Hkeys. revert base_env Hknown Hk.
  induction known as [| x known IH]; intros base_env Hknown Hk;
    cbn [app mark_server].
  - rewrite Hk. reflexivity.
  - apply NoDup_cons in Hnd as [Hx Hnd].
    apply not_elem_of_cons in Hnotin as [Hne Hnotin].
    destruct (Hknown x) as [env Hg]; [apply elem_of_cons; auto |].
    rewrite Hg. apply IH; [exact Hnd | exact Hnotin | |].
    + intros y Hy.
      assert (Hyx : y <> x) by (intros ->; contradiction).
      rewrite DriverProperties.dict_get_set_ne by exact Hyx.
      apply Hknown. apply elem_of_cons. auto.
    + rewrite DriverProperties.dict_get_set_ne by exact Hne. exact Hk.
Qed.

End SetupProperties.

(** * The properties above, on concrete types and drivers *)

Module Instances.
Import Py Json CisBaseType Typedef Examples Loopback.
Import CommBase RPCRequestDriver Runs.
Local Open Scope list_scope.

Lemma extract_typedef_keeps_required_witness :
  (forall k,
     dict_get k [("typename", JStr "raw")]
     = if @required _ raw_type k
       then dict_get k [("typename", JStr "raw"); ("note", JStr "n")]
       else None)
  /\ @validate_definition _ raw_type externals
       (JObject [("typename", JStr "raw")]) = true
  /\ @extract_typedef _ raw_type externals [("typename", JStr "raw")]
     = Ok [("typename", JStr "raw")].
Proof.
  apply (@TypedefProperties.extract_typedef_keeps_required _ raw_type
           externals [("typename", JStr "raw"); ("note", JStr "n")]).
  vm_compute. reflexivity.
Defined.

Lemma update_typedef_absorbs_properties_witness :
  (forall k,
     dict_get k (self_typedef raw_codec)
     = if @is_property _ raw_type k then
         match dict_get k [("typename", JStr "raw"); ("units", JStr "cm")] with
         | Some v => Some v
         | None => dict_get k (self_typedef raw_codec)
         end
       else dict_get k (self_typedef raw_codec))
  /\ (forall k,
        dict_get k [("units", JStr "cm")]
        = if @is_property _ raw_type k then None
          else dict_get k [("typename", JStr "raw"); ("units", JStr "cm")])
  /\ @validate_definition _ raw_type externals
       (JObject (self_typedef raw_codec)) = true.
Proof.
  apply (@TypedefProperties.update_typedef_absorbs_properties _ raw_type
           externals raw_codec raw_codec
           [("typename", JStr "raw"); ("units", JStr "cm")]
           [("units", JStr "cm")]).
  - apply (bool_decide_unpack (NoDup ["typename"; "units"])).
    vm_compute. exact I.
  - vm_compute. reflexivity.
Defined.

Lemma update_typedef_failure_state_witness :
  (ValidationError
   = CisTypeError "Cannot update typedef for type '%s' to be '%s'."
   /\ {| self_typedef := [("typename", JStr "quantity")] |}
      = {| self_typedef := [] |})
  \/ (ValidationError = ValidationError
      /\ @validate_definition _ unit_type externals
           (JObject [("typename", JStr "quantity")]) = false
      /\ forall k,
           dict_get k [("typename", JStr "quantity")]
           = if @is_property _ unit_type k then
               match dict_get k [("typename", JStr "quantity")] with
               | Some v => Some v
               | None => dict_get k []
               end
             else dict_get k []).
Proof.
  apply (@TypedefProperties.update_typedef_failure_state _ unit_type
           externals {| self_typedef := [] |}
           {| self_typedef := [("typename", JStr "quantity")] |}
           [("typename", JStr "quantity")] ValidationError).
  - apply (bool_decide_unpack (NoDup ["typename"])). vm_compute. exact I.
  - vm_compute. reflexivity.
Defined.

Lemma update_typedef_keeps_typename_witness :
  ("other" <> "raw" ->
   @update_typedef _ raw_type externals raw_codec [("typename", JStr "other")]
   = (Raise (CisTypeError "Cannot update typedef for type '%s' to be '%s'."),
      raw_codec))
  /\ dict_get "typename"
       (self_typedef
          (@update_typedef _ raw_type externals raw_codec
             [("typename", JStr "other")]).2)
     = Some (JStr "raw").
Proof.
  apply (@TypedefProperties.update_typedef_keeps_typename _ raw_type
           externals raw_codec [("typename", JStr "other")] "raw" "other").
  - apply (bool_decide_unpack (NoDup ["typename"])). vm_compute. exact I.
  - reflexivity.
  - reflexivity.
  - discriminate.
  - discriminate.
Defined.

Lemma init_sets_typename_witness :
  dict_get "typename" (self_typedef raw_codec)
  = Some (default (JStr (@CisBaseType.name _ raw_type)) (dict_get "typename" []))
  /\ (forall k,
        k <> "typename" ->
        dict_get k (self_typedef raw_codec)
        = if @is_property _ raw_type k then dict_get k [] else None)
  /\ @validate_definition _ raw_type externals
       (JObject (self_typedef raw_codec)) = true.
Proof.
  apply (@TypedefProperties.init_sets_typename _ raw_type externals []
           raw_codec).
  - apply NoDup_nil. exact I.
  - vm_compute. reflexivity.
Defined.

Lemma check_encoded_typedef_restricts_witness :
  @check_encoded _ raw_type externals (JObject [("typename", JStr "raw")])
    None = Ok true
  /\ @validate_definition _ raw_type externals
       (JObject [("typename", JStr "raw")]) = true
  /\ forall k v,
       In (k, v) [("typename", JStr "raw")] ->
       exists x,
         @py_get k (JObject [("typename", JStr "raw")]) = Ok x
         /\ @check_meta_compat _ raw_type k x v = true.
Proof.
  apply (@EnvelopeProperties.check_encoded_typedef_restricts _ raw_type
           externals).
  vm_compute. reflexivity.
Defined.


Lemma encode_result_checked_witness :
  (@check_decoded _ raw_type externals (unicode2bytes "ping")
     (Some (self_typedef raw_codec))).2 = Ok true
  /\ dict_get "typename" [("typename", JStr "raw")]
     = Some (JStr (@CisBaseType.name _ raw_type))
  /\ @check_encoded _ raw_type externals (JObject [("typename", JStr "raw")])
       (Some (self_typedef raw_codec)) = Ok true
  /\ exists obj_t md,
       @transform_type _ raw_type (unicode2bytes "ping")
         (Some (self_typedef raw_codec)) = Ok obj_t
       /\ @encode_type _ raw_type obj_t = Ok md
       /\ [("typename", JStr "raw")]
          = dict_set "typename" (JStr (@CisBaseType.name _ raw_type)) md
       /\ @encode_data _ raw_type obj_t [("typename", JStr "raw")]
          = Ok (Bytes (unicode2bytes "ping")).
Proof.
  apply (@EnvelopeProperties.encode_result_checked _ raw_type externals).
  vm_compute. reflexivity.
Defined.

Lemma decode_result_checked_witness :
  @check_encoded _ raw_type externals (JObject [("typename", JStr "raw")])
    (Some (self_typedef raw_codec)) = Ok true
  /\ exists out,
       @decode_data _ raw_type (unicode2bytes "pong")
         (JObject [("typename", JStr "raw")]) = Ok out
       /\ (@check_decoded _ raw_type externals out
             (Some (self_typedef raw_codec))).2 = Ok true
       /\ @transform_type _ raw_type out (Some (self_typedef raw_codec))
          = Ok (unicode2bytes "pong").
Proof.
  apply (@EnvelopeProperties.decode_result_checked _ raw_type externals).
  vm_compute. reflexivity.
Defined.

Lemma serialize_has_separator_witness :
  contains sep (raw_header ++ sep ++ unicode2bytes "ping") = true
  /\ raw_header ++ sep ++ unicode2bytes "ping" <> [].
Proof.
  apply (@EnvelopeProperties.serialize_has_separator _ raw_type externals
           raw_codec (unicode2bytes "ping") []).
  vm_compute. reflexivity.
Defined.


Lemma serialize_header_entries_witness :
  exists metadata header data,
    (@encode _ raw_type externals (unicode2bytes "ping")
       (Some (self_typedef raw_codec))).2 = Ok (metadata, data)
    /\ unicode2bytes
         (dumps (JObject [("typename", JStr "raw"); ("model", JStr "A")]))
         ++ sep ++ unicode2bytes "ping"
       = unicode2bytes (dumps (JObject header)) ++ sep ++ data
    /\ (forall k,
          dict_get k header
          = match dict_get k [("model", JStr "A")] with
            | Some v => Some v
            | None => dict_get k metadata
            end)
    /\ dict_get "typename" header
       = Some (default (JStr (@CisBaseType.name _ raw_type))
                 (dict_get "typename" [("model", JStr "A")])).
Proof.
  apply (@EnvelopeProperties.serialize_header_entries _ raw_type externals
           raw_codec (unicode2bytes "ping") [("model", JStr "A")]).
  - apply (bool_decide_unpack (NoDup ["model"])). vm_compute. exact I.
  - vm_compute. reflexivity.
Defined.

Lemma send_after_close_refused_witness :
  @send_message sound ping no_kwargs (close_response_drivers (wired {[ "A" ]}))
  = (Ok false, close_response_drivers (wired {[ "A" ]})).
Proof.
  apply (@DriverExtras.send_after_close_refused sound ping no_kwargs
           (wired {[ "A" ]})).
  discriminate.
Defined.

Lemma send_message_missing_key_witness :
  (dict_get "response_address" (header CommExamples.untagged) = None ->
   @send_message sound CommExamples.untagged no_kwargs (wired {[ "A" ]})
   = (Raise (KeyError "response_address"), wired {[ "A" ]}))
  /\ (dict_get "response_address" (header CommExamples.untagged) <> None ->
      dict_get "request_id" (header CommExamples.untagged) = None ->
      @send_message sound CommExamples.untagged no_kwargs (wired {[ "A" ]})
      = (Raise (KeyError "request_id"), wired {[ "A" ]}))
  /\ (dict_get "response_address" (header CommExamples.untagged) <> None ->
      dict_get "request_id" (header CommExamples.untagged) <> None ->
      dict_get "commtype" (header CommExamples.untagged) = None ->
      @send_message sound CommExamples.untagged no_kwargs (wired {[ "A" ]})
      = (Raise (KeyError "commtype"), wired {[ "A" ]})).
Proof.
  apply (@DriverExtras.send_message_missing_key sound CommExamples.untagged
           no_kwargs (wired {[ "A" ]}));
    [reflexivity | reflexivity | reflexivity | discriminate].
Defined.

Lemma request_tags_are_defaults_witness :
  exists hk drv request_id,
    header_kwargs
      (tagged ping no_kwargs (started (fresh_driver (JStr "addr1")))
         (JStr "r1")) = Some hk
    /\ skip_processing
         (tagged ping no_kwargs (started (fresh_driver (JStr "addr1")))
            (JStr "r1")) = skip_processing no_kwargs
    /\ In (EvStarted drv)
         (emitted (wired {[ "A" ]})
            (@send_message sound ping no_kwargs (wired {[ "A" ]})).2)
    /\ dict_get "request_id" (header ping) = Some request_id
    /\ forall key,
         dict_get key hk
         = match dict_get key (default [] (header_kwargs no_kwargs)) with
           | Some v => Some v
           | None =>
               if String.eqb key "response_address"
               then Some (response_address drv)
               else if String.eqb key "request_id" then Some request_id
               else if String.eqb key "model"
               then Some (default (JStr "") (dict_get "model" (header ping)))
               else None
           end.
Proof.
  apply (@DriverExtras.request_tags_are_defaults sound ping ping no_kwargs
           (tagged ping no_kwargs (started (fresh_driver (JStr "addr1")))
              (JStr "r1"))
           (wired {[ "A" ]})).
  - discriminate.
  - vm_compute. right. right. left. reflexivity.
Defined.

Lemma on_eof_unknown_model_witness :
  (clients (wired {[ "A" ]}) <> ∅ ->
   @on_eof sound (eof_from "Z") (wired {[ "A" ]})
   = ({| args := icomm_empty_obj_recv (wired {[ "A" ]}); flag := FLAG_EMPTY;
         header := [] |}, wired {[ "A" ]}))
  /\ (clients (wired {[ "A" ]}) = ∅ ->
      @on_eof sound (eof_from "Z") (wired {[ "A" ]})
      = (@base_on_eof_result sound (eof_from "Z"),
         emit (EvBaseOnEof (eof_from "Z")) (send_eof (wired {[ "A" ]})))).
Proof.
  apply (@DriverExtras.on_eof_unknown_model sound (eof_from "Z")
           (wired {[ "A" ]})).
  vm_compute. reflexivity.
Defined.

Lemma open_file_comm_mode_witness :
  ("a" <> "r" -> "a" <> "w" -> "a" <> "a" ->
   @Communication.open_file_comm CommExamples.any_file unit
     "out.txt" "a" "binary" [] (Ok tt)
   = ([], Raise (ValueError "Unsupported mode: '%s'")))
  /\ (forall args,
        In (Communication.FileCommCreated "binary" args)
          (@Communication.open_file_comm CommExamples.any_file unit
             "out.txt" "a" "binary" [] (Ok tt)).1 ->
        dict_get "direction" args
        = Some (JStr (if String.eqb "a" "r" then "recv" else "send"))
        /\ ("a" = "a" -> dict_get "append" args = Some (JBool true))
        /\ ("a" <> "a" -> dict_get "append" args = dict_get "append" [])).
Proof.
  apply (@CommunicationProperties.open_file_comm_mode CommExamples.any_file
           unit "out.txt" "a" "binary" [] (Ok tt)).
  reflexivity.
Defined.

Lemma init_table_keywords_witness :
  exists self,
    @AsciiTableComm.init CommExamples.plain_parent "table" false true
      [("format_str", JStr "%d"); ("column", JStr ",")] = Ok self
    /\ (forall k v,
          k = "format_str" \/ k = "dtype" \/ k = "column_names" ->
          dict_get k [("format_str", JStr "%d"); ("column", JStr ",")]
          = Some v ->
          dict_get k
            (AsciiTableComm.table_kwargs (AsciiTableComm.file self)) = Some v
          /\ dict_get k (AsciiTableComm.parent_kwargs self) = None)
    /\ (forall k,
          k = "column" \/ k = "use_astropy" ->
          dict_get k (AsciiTableComm.parent_kwargs self)
          = dict_get k [("format_str", JStr "%d"); ("column", JStr ",")])
    /\ (forall k,
          k ∉ AsciiTableComm.file_keys -> k <> "dont_open" ->
          k <> "skip_AsciiFile" ->
          dict_get k (AsciiTableComm.parent_kwargs self)
          = dict_get k [("format_str", JStr "%d"); ("column", JStr ",")]).
Proof.
  eexists. split; [vm_compute; reflexivity |].
  apply (@AsciiTableProperties.init_table_keywords CommExamples.plain_parent
           "table" false true
           [("format_str", JStr "%d"); ("column", JStr ",")]).
  - apply (bool_decide_unpack (NoDup ["format_str"; "column"])).
    vm_compute. exact I.
  - vm_compute. reflexivity.
Defined.

Lemma init_from_opp_comm_kwargs_witness :
  exists self,
    @AsciiTableComm.init CommExamples.plain_parent "table" false true
      (@AsciiTableComm.opp_comm_kwargs CommExamples.plain_parent
         CommExamples.reader) = Ok self
    /\ (forall k,
          In k ["format_str"; "dtype"; "column_names"] ->
          dict_get k
            (AsciiTableComm.table_kwargs (AsciiTableComm.file self))
          = Some (@AsciiTableComm.table_attr CommExamples.plain_parent
                    (AsciiTableComm.file CommExamples.reader) k)
          /\ dict_get k (AsciiTableComm.parent_kwargs self) = None)
    /\ (forall k,
          In k ["column"; "use_astropy"] ->
          dict_get k (AsciiTableComm.parent_kwargs self)
          = Some (@AsciiTableComm.table_attr CommExamples.plain_parent
                    (AsciiTableComm.file CommExamples.reader) k)).
Proof.
  eexists. split; [vm_compute; reflexivity |].
  apply (@AsciiTableProperties.init_from_opp_comm_kwargs
           CommExamples.plain_parent CommExamples.reader _ "table" false true).
  - apply (bool_decide_unpack (NoDup ["address"; "direction"])).
    vm_compute. exact I.
  - vm_compute. reflexivity.
Defined.

Lemma init_wires_request_driver_witness :
  exists st kw st0 commtype o rest,
    @RequestDriverSetup.init CommExamples.plain_driver "rpc" None
      [("outputs", JList [JObject [("is_client", JBool false)]])] = Ok st
    /\ @RequestDriverSetup.base_init CommExamples.plain_driver "rpc" kw
       = Ok (st0, commtype)
    /\ default (JList [JObject []])
         (dict_get "outputs"
            [("outputs", JList [JObject [("is_client", JBool false)]])])
       = JList (JObject o :: rest)
    /\ dict_get "outputs" kw
       = Some (JList
                 (JObject
                    (dict_set "close_on_eof_send" (JBool false)
                       (dict_set "is_client" (JBool true) o)) :: rest))
    /\ response_drivers st = []
    /\ block_response st = false
    /\ dict_get "commtype" (response_kwargs st) = Some commtype.
Proof.
  eexists.
  destruct (@SetupProperties.init_wires_request_driver
              CommExamples.plain_driver "rpc" None
              [("outputs", JList [JObject [("is_client", JBool false)]])]
              _ eq_refl)
    as (kw & st0 & ct & o & rest & H1 & H2 & H3 & _ & _ & H6 & H7 & H8 & _).
  exists kw, st0, ct, o, rest.
  split; [reflexivity |]. split; [exact H1 |]. split; [exact H2 |].
  split; [exact H3 |]. split; [exact H6 |]. split; [exact H7 | exact H8].
Defined.

Lemma model_env_marks_server_witness :
  (forall k,
     k ∈ dict_keys [("server", JObject [])] ->
     exists env env',
       dict_get k [("server", JObject [("CHANNEL", JStr "7")]);
                   ("other", JObject [])]
       = Some (JObject env)
       /\ dict_get k
            [("server",
              JObject [("CHANNEL", JStr "7"); ("YGG_IS_SERVER", JStr "True")]);
             ("other", JObject [])]
          = Some (JObject env')
       /\ dict_get "YGG_IS_SERVER" env' = Some (JStr "True")
       /\ forall x, x <> "YGG_IS_SERVER" -> dict_get x env' = dict_get x env)
  /\ (forall k,
        k ∉ dict_keys [("server", JObject [])] ->
        dict_get k
          [("server",
            JObject [("CHANNEL", JStr "7"); ("YGG_IS_SERVER", JStr "True")]);
           ("other", JObject [])]
        = dict_get k [("server", JObject [("CHANNEL", JStr "7")]);
                      ("other", JObject [])]).
Proof.
  apply (SetupProperties.model_env_marks_server
           [("server", JObject [("CHANNEL", JStr "7")]); ("other", JObject [])]
           [("server", JObject [])]).
  - apply (bool_decide_unpack (NoDup ["server"])). vm_compute. exact I.
  - vm_compute. reflexivity.
Defined.

Lemma model_env_unknown_model_witness :
  RequestDriverSetup.model_env
    [("server", JObject [])] [("server", JObject []); ("ghost", JObject [])]
  = Raise (KeyError "ghost").
Proof.
  apply (SetupProperties.model_env_unknown_model
           [("server", JObject [])]
           [("server", JObject []); ("ghost", JObject [])]
           ["server"] "ghost" []).
  - reflexivity.
  - apply (bool_decide_unpack (NoDup ["server"])). vm_compute. exact I.
  - intros x Hx. apply list_elem_of_singleton in Hx. subst x.
    exists []. reflexivity.
  - reflexivity.
  - apply (bool_decide_unpack ("ghost" ∉ ["server"])). vm_compute. exact I.
Defined.

End Instances.
